(** * Restaurant price optimizer: dynamic pricing rule and menu aggregation

    A shallow embedding of [pricing/services.py] ([WeatherService.kelvin_to_fahrenheit],
    [GooglePlacesService.get_place_busy_times], [PricingService.calculate_price]) and of
    the pricing loop of [pricing/views.py] ([PricingView.get], lines 84-104).

    Python [float]s are IEEE 754 binary64 numbers: they are modelled by the
    Standard Library's [spec_float] with [prec = 53] and [emax = 1024], whose
    operations round to nearest, ties to even.  Python [int]s are [Z].  The
    JSON documents handed around by the view are values of [pyval]; a
    dictionary is a [gmap string pyval].  Code that may raise returns a
    [result]. *)

From Stdlib Require Import ZArith QArith Qabs Bool List Floats.SpecFloat.
From stdpp Require Import base option list strings gmap.

#[local] Set Warnings "-register-all".
#[local] Open Scope Z_scope.

(** ** Binary64 arithmetic *)

Module F64.

Definition prec : Z := 53.
Definition emax : Z := 1024.

(** The binary64 values are the [spec_float]s that satisfy
    [valid_binary prec emax]; every operation below returns such a value
    on such arguments. *)
Abbreviation float := spec_float.

Definition add : float → float → float := SFadd prec emax.
Definition sub : float → float → float := SFsub prec emax.
Definition mul : float → float → float := SFmul prec emax.
Definition div : float → float → float := SFdiv prec emax.
Definition ltb : float → float → bool := SFltb.
Definition leb : float → float → bool := SFleb.

(** [float(z)]: the nearest binary64 number (an infinity past the range). *)
Definition of_Z (z : Z) : float := binary_normalize prec emax z 0 false.

(** The literal written [n/d] in decimal notation, e.g. [273.15] is
    [decimal 27315 100]: Python reads a literal as the binary64 number
    nearest to it, which is what the correctly rounded quotient of the two
    exactly representable integers gives. *)
Definition decimal (n d : Z) : float := div (of_Z n) (of_Z d).

Definition is_zero (x : float) : bool :=
  match x with S754_zero _ => true | _ => false end.

Definition is_infinite (x : float) : bool :=
  match x with S754_infinity _ => true | _ => false end.

(** An integer as an exact (not normalised) significand, for the quotient
    of two [int]s. *)
Definition exact_Z (z : Z) : float :=
  match z with
  | Z0 => S754_zero false
  | Zpos p => S754_finite false p 0
  | Zneg p => S754_finite true p 0
  end.

(** The rational number a finite binary64 value stands for. *)
Definition to_Q (x : float) : option Q :=
  match x with
  | S754_zero _ => Some 0%Q
  | S754_finite s m e =>
      Some (inject_Z (cond_Zopp s (Zpos m)) * Qpower 2 e)%Q
  | _ => None
  end.

End F64.

Abbreviation float := spec_float.

(** ** Python values, exceptions and the built-ins the code uses *)

(** What [response.json()] can return. *)
Inductive pyval :=
  | PNone
  | PBool (b : bool)
  | PInt (z : Z)
  | PFloat (f : float)
  | PStr (s : string)
  | PList (l : list pyval)
  | PDict (d : gmap string pyval).

Inductive exn :=
  | TypeError
  | AttributeError
  | IndexError
  | KeyError
  | OverflowError
  | ZeroDivisionError
  | MemoryError.

Inductive result (A : Type) :=
  | Ok (a : A)
  | Raise (e : exn).

Arguments Ok {A} a.
Arguments Raise {A} e.

#[global] Instance result_ret : MRet result := @Ok.
#[global] Instance result_bind : MBind result := λ A B f m,
  match m with
  | Ok a => f a
  | Raise e => Raise e
  end.

(** [d.get(key, default)]; only a [dict] has the method. *)
Definition dict_get (d : pyval) (key : string) (dflt : pyval) : result pyval :=
  match d with
  | PDict m => Ok (default dflt (m !! key))
  | _ => Raise AttributeError
  end.

(** [v[0]]. *)
Definition subscript0 (v : pyval) : result pyval :=
  match v with
  | PList (x :: _) => Ok x
  | PList [] => Raise IndexError
  | PStr (String c _) => Ok (PStr (String c EmptyString))
  | PStr EmptyString => Raise IndexError
  | PDict _ => Raise KeyError
  | _ => Raise TypeError
  end.

(** [bool(v)]. *)
Definition truthy (v : pyval) : bool :=
  match v with
  | PNone => false
  | PBool b => b
  | PInt z => negb (z =? 0)
  | PFloat f => negb (F64.is_zero f)
  | PStr s => negb (String.eqb s EmptyString)
  | PList l => negb (Nat.eqb (length l) 0)
  | PDict m => negb (Nat.eqb (size m) 0)
  end.

(** [v in [s1, s2, ...]] for a list of [str]: only a [str] equals a [str]. *)
Definition py_in (v : pyval) (l : list string) : bool :=
  match v with
  | PStr s => bool_decide (s ∈ l)
  | _ => false
  end.

(** [float(z)] as Python does it for an [int] operand of a [float]
    operation: [OverflowError] when [z] is too large. *)
Definition int_to_float (z : Z) : result float :=
  let f := F64.of_Z z in
  if F64.is_infinite f then Raise OverflowError else Ok f.

(** The operand [v] of a binary operation whose other operand is a [float]. *)
Definition as_float (v : pyval) : result float :=
  match v with
  | PFloat f => Ok f
  | PInt z => int_to_float z
  | PBool b => Ok (F64.of_Z (Z.b2z b))
  | _ => Raise TypeError
  end.

(** [a / b] on two [int]s: the correctly rounded quotient. *)
Definition int_truediv (a b : Z) : result float :=
  if b =? 0 then Raise ZeroDivisionError
  else
    let q := F64.div (F64.exact_Z a) (F64.exact_Z b) in
    if F64.is_infinite q then Raise OverflowError else Ok q.

(** [x / y] on two [float]s. *)
Definition float_truediv (x y : float) : result float :=
  if F64.is_zero y then Raise ZeroDivisionError else Ok (F64.div x y).

(** [v / n] for an [int] literal [n]. *)
Definition truediv_int (v : pyval) (n : Z) : result float :=
  match v with
  | PInt z => int_truediv z n
  | PBool b => int_truediv (Z.b2z b) n
  | PFloat f => float_truediv f (F64.of_Z n)
  | _ => Raise TypeError
  end.

(** [min(x, *xs)] and [max(a, b)] on [float]s: the built-ins keep the first
    element and replace it only by a later one that compares strictly
    smaller (larger). *)
Definition py_min (x : float) (xs : list float) : float :=
  fold_left (λ m y, if F64.ltb y m then y else m) xs x.

Definition py_max (a b : float) : float :=
  if F64.ltb a b then b else a.

(** ** pricing/services.py *)

(** [GooglePlacesService.get_place_busy_times]: a mock. *)
Definition get_place_busy_times (place_id : string) : Z := 75.

(** [WeatherService.kelvin_to_fahrenheit]:
    [(kelvin - 273.15) * 9/5 + 32]. *)
Definition kelvin_to_fahrenheit (kelvin : float) : float :=
  F64.add
    (F64.div (F64.mul (F64.sub kelvin (F64.decimal 27315 100)) (F64.of_Z 9))
             (F64.of_Z 5))
    (F64.of_Z 32).

(** The docstring's shape of [weather_data]:
    [{'temp': t, 'weather': [{'main': c}]}]. *)
Definition snapshot (t : float) (c : string) : pyval :=
  PDict {[ "temp" := PFloat t;
           "weather" := PList [PDict {[ "main" := PStr c ]}] ]}.

Definition adverse : list string := ["Rain"; "Snow"; "Thunderstorm"].

(** Lines 278-279: [temp_f]. *)
Definition temp_f_of (weather_data : pyval) : result float :=
  temp_kelvin ← dict_get weather_data "temp" (PFloat (F64.decimal 29315 100));
  k ← as_float temp_kelvin;
  Ok (F64.add
        (F64.div (F64.mul (F64.sub k (F64.decimal 27315 100)) (F64.of_Z 9))
                 (F64.of_Z 5))
        (F64.of_Z 32)).

(** Line 282: [weather_conditions]. *)
Definition weather_conditions_of (weather_data : pyval) : result pyval :=
  w ← dict_get weather_data "weather"
        (PList [PDict {[ "main" := PStr "Clear" ]}]);
  w0 ← subscript0 w;
  dict_get w0 "main" (PStr "Clear").

(** Line 283: [bad_weather]. *)
Definition bad_weather_of (weather_conditions : pyval) : bool :=
  py_in weather_conditions adverse.

(** Line 291: [markup]. *)
Definition markup_of (busy_level : Z) : result float :=
  q ← int_truediv (busy_level - 70) 100;
  Ok (F64.add (F64.decimal 11 10) q).

(** [PricingService.calculate_price]. *)
Definition calculate_price (base_price : float) (weather_data : pyval)
    (busy_level : Z) (competitor_prices : list float) : result float :=
  match competitor_prices with
  | [] => Ok base_price
  | p :: ps =>
      let lowest_price := py_min p ps in
      temp_f ← temp_f_of weather_data;
      weather_conditions ← weather_conditions_of weather_data;
      let bad_weather := bad_weather_of weather_conditions in
      let busier_than_usual := 70 <? busy_level in
      if (F64.ltb temp_f (F64.of_Z 45) || bad_weather) && busier_than_usual
      then
        markup ← markup_of busy_level;
        Ok (py_max (F64.mul lowest_price markup) base_price)
      else Ok lowest_price
  end.

(** ** pricing/views.py, the pricing loop of [PricingView.get] *)

(** An entry of [sample_menu_items]: [{'name': ..., 'price': ...}]. *)
Record menu_item := { item_name : string; item_price : float }.

(** An entry of [menu_items]. *)
Record quote := {
  name : string;
  original_price : float;
  new_price : float;
  price_change : float
}.

Definition sample_menu_items : list menu_item :=
  [ {| item_name := "Butter Chicken"; item_price := F64.decimal 1699 100 |};
    {| item_name := "Chicken Tikka Masala"; item_price := F64.decimal 1599 100 |};
    {| item_name := "Vegetable Biryani"; item_price := F64.decimal 1499 100 |};
    {| item_name := "Naan"; item_price := F64.decimal 399 100 |} ].

(** Lines 86-90; [restaurants] is
    [nearby_restaurants.get('results', [])[:5]]. *)
Fixpoint competitor_loop (price : float) (restaurants : list pyval)
    (competitor_prices : list float) : result (list float) :=
  match restaurants with
  | [] => Ok competitor_prices
  | restaurant :: rest =>
      level ← dict_get restaurant "price_level" PNone;
      if truthy level then
        half ← truediv_int level 2;
        competitor_loop price rest (competitor_prices ++ [F64.mul price half])
      else competitor_loop price rest competitor_prices
  end.

(** Lines 99-104: [menu_items.append({...})], with
    [price_change = ((new_price - price) / price) * 100]. *)
Definition append_quote (item : menu_item) (new : float)
    (menu_items : list quote) : result (list quote) :=
  change ← float_truediv (F64.sub new (item_price item)) (item_price item);
  Ok (menu_items ++
        [ {| name := item_name item;
             original_price := item_price item;
             new_price := new;
             price_change := F64.mul change (F64.of_Z 100) |} ]).

(** Lines 85-104, the body of the loop over the items; [results] is the
    list [nearby_restaurants.get('results', [])]. *)
Definition price_item (item : menu_item) (results : list pyval)
    (weather_data : pyval) (current_busy_level : Z) (menu_items : list quote)
    : result (list quote) :=
  competitor_prices ← competitor_loop (item_price item) (take 5 results) [];
  match competitor_prices with
  | [] => Ok menu_items
  | _ :: _ =>
      main ← dict_get weather_data "main" (PDict ∅);
      new ← calculate_price (item_price item) main current_busy_level
              competitor_prices;
      append_quote item new menu_items
  end.

(** Line 84: [for item in sample_menu_items]. *)
Fixpoint menu_loop (items : list menu_item) (results : list pyval)
    (weather_data : pyval) (current_busy_level : Z) (menu_items : list quote)
    : result (list quote) :=
  match items with
  | [] => Ok menu_items
  | item :: rest =>
      menu_items' ← price_item item results weather_data current_busy_level
                      menu_items;
      menu_loop rest results weather_data current_busy_level menu_items'
  end.

(** Line 73 and the loop: [menu_items] starts empty.  An exception leaves the
    [try] block and the view renders the error page instead. *)
Definition price_menu (items : list menu_item) (results : list pyval)
    (weather_data : pyval) (current_busy_level : Z) : result (list quote) :=
  menu_loop items results weather_data current_busy_level [].

(** ** Auxiliary notions used in the statements *)

(** The markup is a positive finite number. *)
Definition markup_defined (busy : Z) : bool :=
  match markup_of busy with
  | Ok (S754_finite false _ _) => true
  | _ => false
  end.


(** The item's derived competitor list is not empty. *)
Definition has_competitors (results : list pyval) (item : menu_item) : bool :=
  match competitor_loop (item_price item) (take 5 results) [] with
  | Ok (_ :: _) => true
  | _ => false
  end.

(** [(new - base) / base * 100]. *)
Definition percent_change (new base : float) : float :=
  F64.mul (F64.div (F64.sub new base) base) (F64.of_Z 100).

(** [q] is the entry the view reports for [item]: the item's name and price,
    the price [calculate_price] recommends against the item's non-empty
    competitor list, and the change in percent. *)
Record quoted (results : list pyval) (weather_data : pyval) (busy : Z)
    (item : menu_item) (q : quote) : Prop := {
  quoted_name : name q = item_name item;
  quoted_original : original_price q = item_price item;
  quoted_new : ∃ cps main,
    competitor_loop (item_price item) (take 5 results) [] = Ok cps
    ∧ cps ≠ []
    ∧ dict_get weather_data "main" (PDict ∅) = Ok main
    ∧ calculate_price (item_price item) main busy cps = Ok (new_price q);
  quoted_change :
    price_change q = percent_change (new_price q) (item_price item)
}.

(** For a busy level above 70 the markup lies above [1.1] and not above
    [1.4000000000000001], the value at busy level 100. *)
Definition markup_bounded (busy : Z) : bool :=
  match markup_of busy with
  | Ok m =>
      F64.ltb (F64.decimal 11 10) m
      && F64.leb m (S754_finite false 6305039478318695 (-52))
  | Raise _ => false
  end.

(** The markup at [busy] is at most [bound] (strictly above [bound]). *)
Definition markup_le (bound : float) (busy : Z) : bool :=
  match markup_of busy with
  | Ok m => F64.leb m bound
  | Raise _ => false
  end.

Definition markup_gt (bound : float) (busy : Z) : bool :=
  match markup_of busy with
  | Ok m => F64.ltb bound m
  | Raise _ => false
  end.

(** Zero of either sign, a positive finite number or plus infinity: the
    values [x] with [0 <= x]. *)
Inductive nonneg_float : float → Prop :=
  | nonneg_zero s : nonneg_float (S754_zero s)
  | nonneg_finite m e : nonneg_float (S754_finite false m e)
  | nonneg_infinity : nonneg_float (S754_infinity false).

(** An entry of the Places API's ['results'] as the docstring of
    [search_nearby_restaurants] has it: a dictionary whose ['price_level'],
    when present, is an [int] from 0 to 4. *)
Definition documented_restaurant (restaurant : pyval) : Prop :=
  ∃ d, restaurant = PDict d
       ∧ (d !! "price_level" = None
          ∨ ∃ z, d !! "price_level" = Some (PInt z) ∧ 0 ≤ z ≤ 4).

(** The ['main'] dictionary of the weather service's response as the
    docstring of [get_current_weather] has it: no ['weather'] key, and a
    [float] under ['temp'] when the key is present. *)
Definition documented_main (main : gmap string pyval) : Prop :=
  main !! "weather" = None
  ∧ (main !! "temp" = None ∨ ∃ t, main !! "temp" = Some (PFloat t)).

(** The response of [get_current_weather]: a dictionary (the one with the
    ['error'] key included) whose ['main'], when present, is as documented. *)
Definition documented_weather (weather_data : pyval) : Prop :=
  ∃ d, weather_data = PDict d
       ∧ (d !! "main" = None
          ∨ ∃ main, d !! "main" = Some (PDict main) ∧ documented_main main).

(** ** More of Python's built-ins *)

(** The code points of a text held in UTF-8: a byte [10xxxxxx] continues the
    character begun before it. *)
Definition is_continuation (c : Ascii.ascii) : bool :=
  (128 <=? Ascii.nat_of_ascii c)%nat && (Ascii.nat_of_ascii c <? 192)%nat.

Fixpoint utf8_chars (s : string) : list string :=
  match s with
  | EmptyString => []
  | String c rest =>
      let chars := utf8_chars rest in
      match rest, chars with
      | String c' _, ch :: chs =>
          if is_continuation c' then String c ch :: chs
          else String c EmptyString :: chars
      | _, _ => String c EmptyString :: chars
      end
  end.

Fixpoint str_concat (l : list string) : string :=
  match l with
  | [] => EmptyString
  | s :: l' => String.append s (str_concat l')
  end.

(** [v[:5]]. A [dict] raises too ([KeyError] from Python 3.12 on). *)
Definition slice5 (v : pyval) : result pyval :=
  match v with
  | PList l => Ok (PList (take 5 l))
  | PStr s => Ok (PStr (str_concat (take 5 (utf8_chars s))))
  | _ => Raise TypeError
  end.

(** [for x in v[:5]]: the values [x] takes. *)
Definition slice5_items (v : pyval) : result (list pyval) :=
  match v with
  | PList l => Ok (take 5 l)
  | PStr s => Ok (PStr <$> take 5 (utf8_chars s))
  | _ => Raise TypeError
  end.

(** [s in v] for a [str] [s]: a key of a [dict], an element of a [list], a
    substring of a [str]. *)
Definition is_str (s : string) (v : pyval) : bool :=
  match v with
  | PStr s' => String.eqb s s'
  | _ => false
  end.

Definition py_contains (s : string) (v : pyval) : result bool :=
  match v with
  | PDict d => Ok (bool_decide (is_Some (d !! s)))
  | PList l => Ok (existsb (is_str s) l)
  | PStr h => Ok (match String.index 0 s h with Some _ => true | None => false end)
  | _ => Raise TypeError
  end.

(** [v[key]] for a [str] [key]. *)
Definition py_getitem (v : pyval) (key : string) : result pyval :=
  match v with
  | PDict d =>
      match d !! key with
      | Some x => Ok x
      | None => Raise KeyError
      end
  | _ => Raise TypeError
  end.

Fixpoint str_repeat (s : string) (n : nat) : string :=
  match n with
  | O => EmptyString
  | S n' => String.append s (str_repeat s n')
  end.

(** [s * v] for a [str] [s]: [v] must be an [int] that fits an index; a
    count below one gives the empty string without allocating; a result of
    more than [capacity] characters, the longest string the interpreter can
    still allocate, raises [MemoryError]. *)
Definition py_str_mul (capacity : Z) (s : string) (v : pyval)
    : result pyval :=
  let times (n : Z) :=
    if (n <? - 2 ^ 63) || (2 ^ 63 <=? n) then Raise OverflowError
    else if n <=? 0 then Ok (PStr EmptyString)
    else if capacity <? n * Z.of_nat (length (utf8_chars s))
    then Raise MemoryError
    else Ok (PStr (str_repeat s (Z.to_nat n))) in
  match v with
  | PInt n => times n
  | PBool b => times (Z.b2z b)
  | _ => Raise TypeError
  end.

(** The rupee sign, U+20B9, in UTF-8. *)
Definition rupee : string :=
  String (Ascii.ascii_of_nat 226) (String (Ascii.ascii_of_nat 130)
    (String (Ascii.ascii_of_nat 185) EmptyString)).

(** ** pricing/services.py, the calls to the outside *)

(** What [requests.get(...)] followed by [response.json()] comes to: the
    parsed document, or an exception [e] with [str(e) = message]. *)
Inductive http_reply :=
  | Reply (json : pyval)
  | Failure (message : string).

(** The services as the code sees them, each a function of the arguments
    that reach its request, [os.getenv('GOOGLE_MAPS_API_KEY')], and the
    length of the longest string the interpreter can still allocate. *)
Record world := {
  textsearch : pyval → pyval → pyval → http_reply;
  details : pyval → http_reply;
  nearbysearch : pyval → pyval → http_reply;
  openweather : pyval → pyval → http_reply;
  google_maps_api_key : option string;
  str_capacity : Z
}.

Definition failed (key what message : string) : pyval :=
  PDict {[ key := PStr (String.append what message) ]}.

(** [GooglePlacesService.search_place]. *)
Definition search_place (w : world) (query latitude longitude : pyval)
    : pyval :=
  match textsearch w query latitude longitude with
  | Reply json => json
  | Failure message =>
      failed "error_message" "Failed to search place: " message
  end.

(** [GooglePlacesService.get_restaurant_details]. *)
Definition get_restaurant_details (w : world) (place_id : pyval) : pyval :=
  match details w place_id with
  | Reply json => json
  | Failure message =>
      failed "error_message" "Failed to get place details: " message
  end.

(** [GooglePlacesService.search_nearby_restaurants]. *)
Definition search_nearby_restaurants (w : world) (latitude longitude : pyval)
    : pyval :=
  match nearbysearch w latitude longitude with
  | Reply json => json
  | Failure message =>
      failed "error_message" "Failed to search nearby restaurants: " message
  end.

(** [WeatherService.get_current_weather]; its failure is reported under
    ['error'], not ['error_message']. *)
Definition get_current_weather (w : world) (latitude longitude : pyval)
    : pyval :=
  match openweather w latitude longitude with
  | Reply json => json
  | Failure message => failed "error" "Failed to get weather data: " message
  end.

(** ** pricing/views.py, [PricingView.get] *)

(** What the view returns: [render(request, template, context)], the
    context being [None] when the call gives none; or the error page of the
    [except] clause, whose message ends in [str(e)]. *)
Inductive response :=
  | Render (template : string) (context : pyval)
  | RenderAnalysisError (e : exn).

(** [request.GET.get(key)]. *)
Definition param (GET : gmap string string) (key : string) : pyval :=
  from_option PStr PNone (GET !! key).

(** Lines 99-104, an entry of [menu_items] as the dictionary it is. *)
Definition quote_dict (q : quote) : pyval :=
  PDict {[ "name" := PStr (name q);
           "original_price" := PFloat (original_price q);
           "new_price" := PFloat (new_price q);
           "price_change" := PFloat (price_change q) ]}.

(** Lines 112 and 120:
    ['₹' * d.get('price_level', 1) if d.get('price_level') else 'N/A']. *)
Definition price_level_display (w : world) (d : pyval) : result pyval :=
  level ← dict_get d "price_level" PNone;
  if truthy level then
    n ← dict_get d "price_level" (PInt 1);
    py_str_mul (str_capacity w) rupee n
  else Ok (PStr "N/A").

(** Lines 116-122, an entry of ['nearby_restaurants']. *)
Definition nearby_entry (w : world) (r : pyval) : result pyval :=
  r_name ← dict_get r "name" (PStr "Unknown");
  rating ← dict_get r "rating" (PStr "N/A");
  total_ratings ← dict_get r "user_ratings_total" (PInt 0);
  price_level ← price_level_display w r;
  distance ← dict_get r "distance" (PStr "N/A");
  Ok (PDict {[ "name" := r_name;
               "rating" := rating;
               "total_ratings" := total_ratings;
               "price_level" := price_level;
               "distance" := distance ]}).

(** Lines 115-124, the list comprehension. *)
Fixpoint nearby_entries (w : world) (rs : list pyval)
    : result (list pyval) :=
  match rs with
  | [] => Ok []
  | r :: rest =>
      entry ← nearby_entry w r;
      entries ← nearby_entries w rest;
      Ok (entry :: entries)
  end.

(** Lines 107-114, ['restaurant_details']; [result_] is the view's
    [result]. *)
Definition restaurant_details_display (w : world) (result_ : pyval)
    : result pyval :=
  r_name ← dict_get result_ "name" (PStr "Unknown Restaurant");
  address ← dict_get result_ "formatted_address" (PStr "Address not available");
  rating ← dict_get result_ "rating" (PStr "N/A");
  total_ratings ← dict_get result_ "user_ratings_total" (PInt 0);
  price_level ← price_level_display w result_;
  photos ← dict_get result_ "photos" (PList []);
  photos5 ← slice5 photos;
  Ok (PDict {[ "name" := r_name;
               "address" := address;
               "rating" := rating;
               "total_ratings" := total_ratings;
               "price_level" := price_level;
               "photos" := photos5 ]}).

(** Lines 125-131, ['weather_data']. *)
Definition weather_display (weather_data : pyval) : result pyval :=
  main ← dict_get weather_data "main" (PDict ∅);
  temp ← dict_get main "temp" (PFloat (F64.decimal 29315 100));
  kelvin ← as_float temp;
  conditions ← dict_get weather_data "weather" (PList [PDict ∅]);
  first ← subscript0 conditions;
  condition ← dict_get first "main" (PStr "Unknown");
  conditions' ← dict_get weather_data "weather" (PList [PDict ∅]);
  first' ← subscript0 conditions';
  description ← dict_get first' "description"
                  (PStr "Weather data not available");
  Ok (PDict {[ "temperature_f" := PFloat (kelvin_to_fahrenheit kelvin);
               "condition" := condition;
               "description" := description ]}).

(** Lines 73-104: [menu_items], priced only for a restaurant with photos. *)
Definition menu_of (result_ nearby_restaurants weather_data : pyval)
    (current_busy_level : Z) : result (list quote) :=
  photos ← dict_get result_ "photos" (PList []);
  if truthy photos then
    results ← dict_get nearby_restaurants "results" (PList []);
    restaurants ← slice5_items results;
    price_menu sample_menu_items restaurants weather_data current_busy_level
  else Ok [].

(** Lines 57-134, the body of the [try]: the context of the pricing page. *)
Definition analysis (w : world) (selected_place_id : string)
    (result_ latitude longitude : pyval) : result pyval :=
  let nearby_restaurants := search_nearby_restaurants w latitude longitude in
  let weather_data := get_current_weather w latitude longitude in
  let current_busy_level := get_place_busy_times selected_place_id in
  menu_items ← menu_of result_ nearby_restaurants weather_data
                  current_busy_level;
  restaurant_details ← restaurant_details_display w result_;
  results ← dict_get nearby_restaurants "results" (PList []);
  restaurants ← slice5_items results;
  nearby ← nearby_entries w restaurants;
  weather ← weather_display weather_data;
  Ok (PDict {[ "restaurant_details" := restaurant_details;
               "nearby_restaurants" := PList nearby;
               "weather_data" := weather;
               "busy_level" := PInt current_busy_level;
               "menu_items" := PList (quote_dict <$> menu_items) ]}).

(** Lines 38-140, the page of a selected restaurant. *)
Definition details_view (w : world) (selected_place_id : string)
    : result response :=
  let restaurant_details :=
    get_restaurant_details w (PStr selected_place_id) in
  has_error ← py_contains "error_message" restaurant_details;
  if has_error : bool then
    message ← py_getitem restaurant_details "error_message";
    Ok (Render "pricing/error.html" (PDict {[ "error" := message ]}))
  else
    result_ ← dict_get restaurant_details "result" (PDict ∅);
    if negb (truthy result_) then
      Ok (Render "pricing/error.html"
            (PDict {[ "error" := PStr "Unable to fetch restaurant details" ]}))
    else
      geometry ← dict_get result_ "geometry" (PDict ∅);
      location ← dict_get geometry "location" (PDict ∅);
      latitude ← dict_get location "lat" (PFloat (F64.decimal 407631 10000));
      longitude ← dict_get location "lng"
                    (PFloat (SFopp (F64.decimal 735267 10000)));
      Ok match analysis w selected_place_id result_ latitude longitude with
         | Ok context => Render "pricing/pricing.html" context
         | Raise e => RenderAnalysisError e
         end.

(** Lines 22-36, the list of search results. *)
Definition search_view (w : world) (GET : gmap string string)
    (search_query : pyval) : result response :=
  let search_results :=
    search_place w search_query
      (PStr (default "40.7631" (GET !! "latitude")))
      (PStr (default "-73.5267" (GET !! "longitude"))) in
  restaurants ← dict_get search_results "results" (PList []);
  error_message ← dict_get search_results "error_message" PNone;
  Ok (Render "pricing/search_results.html"
        (PDict {[ "search_query" := search_query;
                  "restaurants" := restaurants;
                  "google_maps_api_key" :=
                    from_option PStr PNone (google_maps_api_key w);
                  "error_message" := error_message ]})).

(** [PricingView.get]; [Raise] is an exception that leaves the view. *)
Definition get (w : world) (GET : gmap string string) : result response :=
  let search_query := param GET "restaurant" in
  let selected_place_id := param GET "place_id" in
  if negb (truthy search_query) && negb (truthy selected_place_id) then
    Ok (Render "pricing/search.html" PNone)
  else if truthy search_query && negb (truthy selected_place_id) then
    search_view w GET search_query
  else details_view w (default EmptyString (GET !! "place_id")).

(** ** Auxiliary notions used in the further statements *)

(** The markup at [b1] is below the markup at [b2]. *)
Definition markup_lt (b1 b2 : Z) : bool :=
  match markup_of b1, markup_of b2 with
  | Ok m1, Ok m2 => F64.ltb m1 m2
  | _, _ => false
  end.

(** The test of line 88: the restaurant has a truthy ['price_level']. *)
Definition priced (restaurant : pyval) : bool :=
  match dict_get restaurant "price_level" PNone with
  | Ok level => truthy level
  | Raise _ => false
  end.

(** A value that is no number: [None], a [str], a [list] or a [dict]. *)
Definition not_a_number (v : pyval) : bool :=
  match v with
  | PBool _ | PInt _ | PFloat _ => false
  | _ => true
  end.

(** The world [w] with another text search. *)
Definition with_textsearch (w : world)
    (f : pyval → pyval → pyval → http_reply) : world :=
  {| textsearch := f;
     details := details w;
     nearbysearch := nearbysearch w;
     openweather := openweather w;
     google_maps_api_key := google_maps_api_key w;
     str_capacity := str_capacity w |}.

(** A parameter of the query string that is absent or empty. *)
Definition blank (GET : gmap string string) (key : string) : Prop :=
  GET !! key = None ∨ GET !! key = Some EmptyString.

Definition is_dict (v : pyval) : bool :=
  match v with
  | PDict _ => true
  | _ => false
  end.

(** ** pricing/management/commands/find_place_id.py *)

(** What [self.stdout.write] is given.  The text an f-string makes of a
    value is not computed: [Field label v] stands for [f"{label}{v}"]. *)
Inductive line :=
  | Success (text : string)
  | Error (label : string) (value : pyval)
  | Field (label : string) (value : pyval)
  | Text (text : string).

(** A step of the command: the lines written so far go in, the lines
    written come out, with the step's value or the exception that ends the
    command. *)
Definition io (A : Type) : Type := list line → list line * result A.

#[global] Instance io_ret : MRet io := λ A a out, (out, Ok a).
#[global] Instance io_bind : MBind io := λ A B f m out,
  match m out with
  | (out', Ok a) => f a out'
  | (out', Raise e) => (out', Raise e)
  end.

Definition write (l : line) : io unit := λ out, (out ++ [l], Ok tt).

Definition lift {A} (r : result A) : io A := λ out, (out, r).

(** [for x in v]: the values [x] takes.  A [dict] gives its keys (here in
    the order of the keys, in Python in the order of insertion). *)
Definition py_iter (v : pyval) : result (list pyval) :=
  match v with
  | PList l => Ok l
  | PStr s => Ok (PStr <$> utf8_chars s)
  | PDict d => Ok (PStr <$> (map_to_list d).*1)
  | _ => Raise TypeError
  end.

Definition newline : Ascii.ascii := Ascii.ascii_of_nat 10.

(** Lines 48-51, the body of the loop over the places. *)
Definition write_place (place : pyval) : io unit :=
  place_name ← lift (dict_get place "name" PNone);
  _ ← write (Field (String newline "Name: ") place_name);
  address ← lift (dict_get place "formatted_address" PNone);
  _ ← write (Field "Address: " address);
  place_id ← lift (dict_get place "place_id" PNone);
  _ ← write (Field "Place ID: " place_id);
  write (Text (str_repeat "-" 50)).

Fixpoint write_places (places : list pyval) : io unit :=
  match places with
  | [] => mret tt
  | place :: rest => _ ← write_place place; write_places rest
  end.

(** [Command.handle]. *)
Definition handle (w : world) (restaurant_name : string) : io unit :=
  let latitude := PFloat (F64.decimal 407631 10000) in
  let longitude := PFloat (SFopp (F64.decimal 735267 10000)) in
  let results := search_place w (PStr restaurant_name) latitude longitude in
  found ← lift (py_contains "results" results);
  if found : bool then
    _ ← write (Success "Search Results:");
    places ← lift (py_getitem results "results" ≫= py_iter);
    write_places places
  else
    message ← lift (dict_get results "error_message" (PStr "No results found"));
    write (Error "Error: " message).

(** The four lines written for a place. *)
Definition place_lines (place : gmap string pyval) : list line :=
  [ Field (String newline "Name: ") (default PNone (place !! "name"));
    Field "Address: " (default PNone (place !! "formatted_address"));
    Field "Place ID: " (default PNone (place !! "place_id"));
    Text (str_repeat "-" 50) ].

(** * Properties *)

(** ** The result monad *)

Lemma bind_Ok {A B} (f : A → result B) (a : A) : (Ok a ≫= f) = f a.
Proof. reflexivity. Qed.

Lemma bind_Raise {A B} (f : A → result B) (e : exn) :
  (Raise e ≫= f) = Raise e.
Proof. reflexivity. Qed.

Lemma bind_Ok_inv {A B} (f : A → result B) (m : result A) (b : B) :
  (m ≫= f) = Ok b → ∃ a, m = Ok a ∧ f a = Ok b.
Proof. destruct m as [a|e]; [eauto | discriminate]. Qed.

(** ** Literals *)

(** The numbers the source writes in decimal notation, as binary64 values:
    [273.15 = 0x1.1126666666666p+8], [293.15 = 0x1.2526666666666p+8],
    [1.1 = 0x1.199999999999ap+0], and the integers exactly. *)
Lemma decimal_literals :
  F64.decimal 27315 100 = S754_finite false 0x11126666666666 (-44)
  ∧ F64.decimal 29315 100 = S754_finite false 0x12526666666666 (-44)
  ∧ F64.decimal 11 10 = S754_finite false 0x1199999999999a (-52)
  ∧ F64.of_Z 45 = S754_finite false (45 * 2 ^ 47) (-47)
  ∧ F64.of_Z 9 = S754_finite false (9 * 2 ^ 49) (-49)
  ∧ F64.of_Z 5 = S754_finite false (5 * 2 ^ 50) (-50)
  ∧ F64.of_Z 32 = S754_finite false (2 ^ 52) (-47)
  ∧ F64.of_Z 100 = S754_finite false (100 * 2 ^ 46) (-46).
Proof. repeat split; vm_compute; reflexivity. Qed.

(** ** Comparisons of binary64 numbers *)

Lemma ltb_irrefl (x : float) : F64.ltb x x = false.
Proof.
  destruct x as [s|s| |s m e]; try (destruct s; reflexivity); try reflexivity.
  unfold F64.ltb, SFltb, SFcompare.
  rewrite Z.compare_refl, Pos.compare_cont_refl. by destruct s.
Qed.

Lemma compare_cont_Eq_antisym (m1 m2 : positive) :
  Pos.compare_cont Eq m2 m1 = CompOpp (Pos.compare_cont Eq m1 m2).
Proof. apply (Pos.compare_antisym m1 m2). Qed.

Lemma leb_ltb_false (x y : float) : F64.leb x y = true → F64.ltb y x = false.
Proof.
  unfold F64.leb, F64.ltb, SFleb, SFltb.
  destruct x as [sx|sx| |sx mx ex], y as [sy|sy| |sy my ey]; simpl;
    try (destruct sx); try (destruct sy); try done;
    rewrite (Z.compare_antisym ex ey), (compare_cont_Eq_antisym mx my);
    destruct (ex ?= ey); simpl; try done;
    destruct (Pos.compare_cont Eq mx my); done.
Qed.

Lemma py_max_not_below (a b : float) : F64.ltb (py_max a b) b = false.
Proof.
  unfold py_max. destruct (F64.ltb a b) eqn:H; [apply ltb_irrefl | exact H].
Qed.

Lemma py_min_elem (x : float) (xs : list float) : py_min x xs ∈ x :: xs.
Proof.
  unfold py_min. revert x. induction xs as [|y ys IH]; intros x; simpl.
  - apply list_elem_of_here.
  - specialize (IH (if F64.ltb y x then y else x)).
    apply elem_of_cons in IH as [->|IH].
    + destruct (F64.ltb y x);
        [apply list_elem_of_further, list_elem_of_here | apply list_elem_of_here].
    + by do 2 apply list_elem_of_further.
Qed.

(** [y < m] and not [z < m] leave no room for [z < y]. *)
Lemma ltb_below (y m z : float) :
  F64.ltb y m = true → F64.ltb z m = false → F64.ltb z y = false.
Proof.
  unfold F64.ltb, SFltb, SFcompare.
  destruct y as [sy|sy| |sy my ey], m as [sm|sm| |sm mm em],
    z as [sz|sz| |sz mz ez];
    try (destruct sy); try (destruct sm); try (destruct sz); try done;
    change (Pos.compare_cont Eq) with Pos.compare;
    repeat match goal with
    | |- context [?a ?= ?b] => destruct (Z.compare_spec a b)
    | |- context [(?a ?= ?b)%positive] => destruct (Pos.compare_spec a b)
    end; simpl; try done; try lia.
Qed.

Lemma py_min_below (m : float) (xs : list float) (z : float) :
  F64.ltb z m = false → F64.ltb z (py_min m xs) = false.
Proof.
  unfold py_min. revert m. induction xs as [|y ys IH]; intros m Hz; simpl.
  - exact Hz.
  - apply IH. destruct (F64.ltb y m) eqn:Hy; [|exact Hz].
    by apply (ltb_below y m z).
Qed.

(** No element of the list compares below [min] of the list. *)
Lemma py_min_lower_bound (x : float) (xs : list float) (z : float) :
  z ∈ x :: xs → F64.ltb z (py_min x xs) = false.
Proof.
  revert x. induction xs as [|y ys IH]; intros x Hz.
  - apply list_elem_of_singleton in Hz as ->. apply ltb_irrefl.
  - change (py_min x (y :: ys))
      with (py_min (if F64.ltb y x then y else x) ys).
    apply elem_of_cons in Hz as [->|Hz].
    + apply py_min_below. destruct (F64.ltb y x) eqn:Hy; [|apply ltb_irrefl].
      apply (ltb_below y x x Hy), ltb_irrefl.
    + apply elem_of_cons in Hz as [->|Hz].
      * apply py_min_below. destruct (F64.ltb y x) eqn:Hy;
          [apply ltb_irrefl | exact Hy].
      * apply IH. by apply list_elem_of_further.
Qed.

(** ** Signs under rounding *)

Section Rounding.

Variables prec emax : Z.

Lemma shr_1_nonneg (mrs : shr_record) :
  0 ≤ shr_m mrs → 0 ≤ shr_m (shr_1 mrs).
Proof.
  destruct mrs as [m r s]. simpl. intros Hm.
  destruct m as [|[p|p|]|p]; simpl; lia.
Qed.

Lemma iter_shr_1_nonneg (n : positive) (mrs : shr_record) :
  0 ≤ shr_m mrs → 0 ≤ shr_m (SpecFloat.iter_pos shr_1 n mrs).
Proof.
  revert mrs. induction n as [n IH|n IH|]; intros mrs Hm; simpl.
  - apply IH, IH, shr_1_nonneg, Hm.
  - apply IH, IH, Hm.
  - apply shr_1_nonneg, Hm.
Qed.

Lemma shr_fexp_nonneg (m e : Z) (l : location) :
  0 ≤ m → 0 ≤ shr_m (fst (shr_fexp prec emax m e l)).
Proof.
  intros Hm. unfold shr_fexp, shr.
  assert (H0 : 0 ≤ shr_m (shr_record_of_loc m l)) by by destruct l as [|[]].
  destruct (fexp prec emax (Zdigits2 m + e) - e); simpl; try done.
  by apply iter_shr_1_nonneg.
Qed.

Lemma round_nearest_even_nonneg (m : Z) (l : location) :
  0 ≤ m → 0 ≤ round_nearest_even m l.
Proof.
  intros Hm. destruct l as [|[]]; simpl; try lia. destruct (Z.even m); lia.
Qed.

Lemma binary_round_aux_nonneg (m e : Z) (l : location) :
  0 ≤ m → nonneg_float (binary_round_aux prec emax false m e l).
Proof.
  intros Hm. unfold binary_round_aux.
  pose proof (shr_fexp_nonneg m e l Hm) as H1.
  destruct (shr_fexp prec emax m e l) as [mrs' e']. simpl in H1.
  pose proof (shr_fexp_nonneg _ e' loc_Exact
                (round_nearest_even_nonneg _ (loc_of_shr_record mrs') H1))
    as H2.
  destruct (shr_fexp prec emax _ e' loc_Exact) as [mrs'' e'']. simpl in H2.
  destruct (shr_m mrs'') as [|q|q]; [constructor| |lia].
  destruct (e'' <=? emax - prec); constructor.
Qed.

End Rounding.

Lemma nonneg_float_leb (x : float) :
  nonneg_float x ↔ F64.leb (F64.of_Z 0) x = true.
Proof.
  split.
  - by destruct 1.
  - destruct x as [s|[]| |[] m e]; try done; constructor.
Qed.

(** A non-negative number times a positive finite one is non-negative. *)
Lemma mul_nonneg (x : float) (m : positive) (e : Z) :
  nonneg_float x → nonneg_float (F64.mul x (S754_finite false m e)).
Proof.
  destruct 1 as [s|mx ex|]; simpl.
  - rewrite xorb_false_r. constructor.
  - by apply binary_round_aux_nonneg.
  - constructor.
Qed.

Lemma py_max_nonneg (a b : float) :
  nonneg_float a → nonneg_float b → nonneg_float (py_max a b).
Proof. intros Ha Hb. unfold py_max. by destruct (F64.ltb a b). Qed.

Lemma py_min_nonneg (x : float) (xs : list float) :
  Forall nonneg_float (x :: xs) → nonneg_float (py_min x xs).
Proof.
  intros H. rewrite Forall_forall in H. apply H, py_min_elem.
Qed.

(** ** Reading a weather snapshot *)

Lemma temp_f_of_snapshot (t : float) (c : string) :
  temp_f_of (snapshot t c) = Ok (kelvin_to_fahrenheit t).
Proof. reflexivity. Qed.

Lemma weather_conditions_of_snapshot (t : float) (c : string) :
  weather_conditions_of (snapshot t c) = Ok (PStr c).
Proof. reflexivity. Qed.

Lemma bad_weather_of_str (c : string) :
  bad_weather_of (PStr c) = bool_decide (c ∈ adverse).
Proof. reflexivity. Qed.

(** The price on a snapshot, as one conditional. *)
Lemma calculate_price_snapshot (base t : float) (c : string) (busy : Z)
    (p : float) (ps : list float) :
  calculate_price base (snapshot t c) busy (p :: ps) =
    if (F64.ltb (kelvin_to_fahrenheit t) (F64.of_Z 45)
        || bool_decide (c ∈ adverse)) && (70 <? busy)
    then markup ← markup_of busy;
         Ok (py_max (F64.mul (py_min p ps) markup) base)
    else Ok (py_min p ps).
Proof. reflexivity. Qed.

(** ** The markup on the documented range of busy levels *)

Lemma markup_defined_upto_100 :
  forallb markup_defined (seqZ 0 101) = true.
Proof. vm_compute. reflexivity. Qed.

Lemma markup_of_percentage (busy : Z) :
  0 ≤ busy ≤ 100 → ∃ m e, markup_of busy = Ok (S754_finite false m e).
Proof.
  intros Hb.
  assert (Hin : In busy (seqZ 0 101)).
  { apply list_elem_of_In, elem_of_seqZ. lia. }
  pose proof (proj1 (forallb_forall _ _) markup_defined_upto_100 _ Hin) as H.
  unfold markup_defined in H.
  destruct (markup_of busy) as [[| | |[] m e]|]; try discriminate. eauto.
Qed.

Lemma markup_bounded_above_70 :
  forallb markup_bounded (seqZ 71 30) = true.
Proof. vm_compute. reflexivity. Qed.

Lemma markup_of_busy (busy : Z) :
  70 < busy ≤ 100 →
  ∃ m e, markup_of busy = Ok (S754_finite false m e)
         ∧ F64.ltb (F64.decimal 11 10) (S754_finite false m e) = true
         ∧ F64.leb (S754_finite false m e)
             (S754_finite false 6305039478318695 (-52)) = true.
Proof.
  intros Hb.
  destruct (markup_of_percentage busy) as (m & e & Hm); [lia|].
  exists m, e. split; [exact Hm|].
  assert (Hin : In busy (seqZ 71 30)).
  { apply list_elem_of_In, elem_of_seqZ. lia. }
  pose proof (proj1 (forallb_forall _ _) markup_bounded_above_70 _ Hin) as H.
  unfold markup_bounded in H. rewrite Hm in H.
  by apply andb_true_iff in H.
Qed.

(** ** The claims *)

(** C1. On a weather snapshot whose Fahrenheit temperature is below 45 or
    whose condition is Rain, Snow or Thunderstorm, with a busy level above
    70 and a non-empty competitor list, [calculate_price] returns
    [max(min(competitor_prices) * markup, base_price)] with
    [markup = 1.1 + (busy_level - 70) / 100]; whatever it returns is not
    below [base_price], and it does return for a busy level up to 100. *)
Theorem calculate_price_markup_branch (base t : float) (c : string)
    (busy : Z) (p : float) (ps : list float) :
  F64.ltb (kelvin_to_fahrenheit t) (F64.of_Z 45) = true ∨ c ∈ adverse →
  70 < busy →
  calculate_price base (snapshot t c) busy (p :: ps) =
    (q ← int_truediv (busy - 70) 100;
     Ok (py_max (F64.mul (py_min p ps) (F64.add (F64.decimal 11 10) q)) base))
  ∧ (∀ r, calculate_price base (snapshot t c) busy (p :: ps) = Ok r →
          F64.ltb r base = false)
  ∧ (busy ≤ 100 →
     ∃ r, calculate_price base (snapshot t c) busy (p :: ps) = Ok r).
Proof.
  intros Hw Hb.
  assert (Hcond : (F64.ltb (kelvin_to_fahrenheit t) (F64.of_Z 45)
                   || bool_decide (c ∈ adverse)) && (70 <? busy) = true).
  { apply andb_true_iff; split; [|by apply Z.ltb_lt].
    apply orb_true_iff. destruct Hw as [Hw|Hw]; [by left|right].
    by apply bool_decide_eq_true. }
  rewrite calculate_price_snapshot, Hcond.
  assert (Heq : (markup ← markup_of busy;
                 Ok (py_max (F64.mul (py_min p ps) markup) base)) =
                (q ← int_truediv (busy - 70) 100;
                 Ok (py_max (F64.mul (py_min p ps)
                                     (F64.add (F64.decimal 11 10) q)) base))).
  { unfold markup_of. by destruct (int_truediv (busy - 70) 100). }
  split; [exact Heq|]. split.
  - intros r Hr. apply bind_Ok_inv in Hr as (m & _ & Hr).
    injection Hr as <-. apply py_max_not_below.
  - intros Hle. destruct (markup_of_percentage busy) as (m & e & Hm); [lia|].
    rewrite Hm. eauto.
Qed.

Lemma calculate_price_markup_branch_witness :
  let base := F64.decimal 1599 100 in
  let t := F64.decimal 27315 100 in
  let p := F64.decimal 1499 100 in
  (F64.ltb (kelvin_to_fahrenheit t) (F64.of_Z 45) = true ∨ "Clear" ∈ adverse)
  ∧ 70 < 75
  ∧ calculate_price base (snapshot t "Clear") 75 [p] =
      (q ← int_truediv (75 - 70) 100;
       Ok (py_max (F64.mul (py_min p []) (F64.add (F64.decimal 11 10) q)) base))
  ∧ (∀ r, calculate_price base (snapshot t "Clear") 75 [p] = Ok r →
          F64.ltb r base = false)
  ∧ (75 ≤ 100 → ∃ r, calculate_price base (snapshot t "Clear") 75 [p] = Ok r).
Proof.
  intros base t p.
  assert (Hw : F64.ltb (kelvin_to_fahrenheit t) (F64.of_Z 45) = true
               ∨ "Clear" ∈ adverse) by (left; vm_compute; reflexivity).
  assert (Hb : 70 < 75) by lia.
  split; [exact Hw|]. split; [exact Hb|].
  exact (calculate_price_markup_branch base t "Clear" 75 p [] Hw Hb).
Defined.

(** C2. On a snapshot whose condition is not Rain, Snow or Thunderstorm and
    whose Fahrenheit temperature is at least 45, [calculate_price] returns
    [min(competitor_prices)] for every base price and busy level. *)
Theorem calculate_price_normal_conditions (base t : float) (c : string)
    (busy : Z) (p : float) (ps : list float) :
  c ∉ adverse →
  F64.leb (F64.of_Z 45) (kelvin_to_fahrenheit t) = true →
  calculate_price base (snapshot t c) busy (p :: ps) = Ok (py_min p ps).
Proof.
  intros Hc Ht. rewrite calculate_price_snapshot.
  rewrite (leb_ltb_false _ _ Ht), (bool_decide_eq_false_2 _ Hc). reflexivity.
Qed.

Lemma calculate_price_normal_conditions_witness :
  let t := F64.decimal 29315 100 in
  ("Clouds" ∉ adverse)
  ∧ F64.leb (F64.of_Z 45) (kelvin_to_fahrenheit t) = true
  ∧ calculate_price (F64.decimal 1599 100) (snapshot t "Clouds") 95
      [F64.decimal 1699 100; F64.decimal 1499 100]
    = Ok (py_min (F64.decimal 1699 100) [F64.decimal 1499 100]).
Proof.
  intros t.
  assert (Hc : "Clouds" ∉ adverse).
  { intros H. apply (bool_decide_eq_true_2 _) in H. vm_compute in H.
    discriminate H. }
  assert (Ht : F64.leb (F64.of_Z 45) (kelvin_to_fahrenheit t) = true)
    by (vm_compute; reflexivity).
  split; [exact Hc|]. split; [exact Ht|].
  exact (calculate_price_normal_conditions _ t "Clouds" 95 _ _ Hc Ht).
Defined.

(** C3. With an empty competitor list [calculate_price] returns the base
    price unchanged, whatever the weather argument and the busy level. *)
Theorem calculate_price_no_competitors (base : float) (weather_data : pyval)
    (busy : Z) :
  calculate_price base weather_data busy [] = Ok base.
Proof. reflexivity. Qed.

(** C6. At a busy level of exactly 70 the test [busy_level > 70] fails, so
    on every snapshot, adverse or cold as it may be, [calculate_price]
    returns [min(competitor_prices)]. *)
Theorem calculate_price_at_70 (base t : float) (c : string)
    (p : float) (ps : list float) :
  (70 <? 70) = false
  ∧ calculate_price base (snapshot t c) 70 (p :: ps) = Ok (py_min p ps).
Proof.
  split; [reflexivity|].
  rewrite calculate_price_snapshot.
  change (70 <? 70) with false. by rewrite andb_false_r.
Qed.

(** C8. [kelvin_to_fahrenheit(kelvin)] is [(kelvin - 273.15) * 9/5 + 32],
    evaluated from left to right in binary64; it maps [273.15] to [32.0]
    and [373.15] to [212.0]. *)
Theorem kelvin_to_fahrenheit_formula :
  (∀ kelvin : float,
     kelvin_to_fahrenheit kelvin =
       F64.add
         (F64.div
            (F64.mul (F64.sub kelvin (F64.decimal 27315 100)) (F64.of_Z 9))
            (F64.of_Z 5))
         (F64.of_Z 32))
  ∧ kelvin_to_fahrenheit (F64.decimal 27315 100) = F64.of_Z 32
  ∧ kelvin_to_fahrenheit (F64.decimal 37315 100) = F64.of_Z 212.
Proof. split; [reflexivity|]. split; vm_compute; reflexivity. Qed.

(** C10. On a weather dictionary with neither a ['temp'] nor a ['weather']
    key, [calculate_price] reads 293.15 K, that is 68 degrees Fahrenheit
    and not below 45, and the condition ['Clear'], which is not adverse; with
    a non-empty competitor list it returns [min(competitor_prices)] for
    every base price and busy level. *)
Theorem calculate_price_missing_keys (base : float) (d : gmap string pyval)
    (busy : Z) (p : float) (ps : list float) :
  d !! "temp" = None →
  d !! "weather" = None →
  temp_f_of (PDict d) = Ok (kelvin_to_fahrenheit (F64.decimal 29315 100))
  ∧ kelvin_to_fahrenheit (F64.decimal 29315 100) = F64.of_Z 68
  ∧ F64.ltb (F64.of_Z 68) (F64.of_Z 45) = false
  ∧ weather_conditions_of (PDict d) = Ok (PStr "Clear")
  ∧ bad_weather_of (PStr "Clear") = false
  ∧ calculate_price base (PDict d) busy (p :: ps) = Ok (py_min p ps).
Proof.
  intros Ht Hw.
  assert (Htemp : temp_f_of (PDict d) =
                  Ok (kelvin_to_fahrenheit (F64.decimal 29315 100))).
  { unfold temp_f_of, dict_get. rewrite Ht. reflexivity. }
  assert (H68 : kelvin_to_fahrenheit (F64.decimal 29315 100) = F64.of_Z 68)
    by (vm_compute; reflexivity).
  assert (Hcond : weather_conditions_of (PDict d) = Ok (PStr "Clear")).
  { unfold weather_conditions_of, dict_get. rewrite Hw. reflexivity. }
  repeat split; try assumption; try reflexivity.
  unfold calculate_price. rewrite Htemp, Hcond, H68. reflexivity.
Qed.

Lemma calculate_price_missing_keys_witness :
  let d : gmap string pyval := {[ "humidity" := PInt 40 ]} in
  let base := F64.decimal 1599 100 in
  let p := F64.decimal 1499 100 in
  (d !! "temp" = None)
  ∧ (d !! "weather" = None)
  ∧ temp_f_of (PDict d) = Ok (kelvin_to_fahrenheit (F64.decimal 29315 100))
  ∧ kelvin_to_fahrenheit (F64.decimal 29315 100) = F64.of_Z 68
  ∧ F64.ltb (F64.of_Z 68) (F64.of_Z 45) = false
  ∧ weather_conditions_of (PDict d) = Ok (PStr "Clear")
  ∧ bad_weather_of (PStr "Clear") = false
  ∧ calculate_price base (PDict d) 95 [p] = Ok (py_min p []).
Proof.
  intros d base p.
  assert (Ht : d !! "temp" = None) by reflexivity.
  assert (Hw : d !! "weather" = None) by reflexivity.
  split; [exact Ht|]. split; [exact Hw|].
  exact (calculate_price_missing_keys base d 95 p [] Ht Hw).
Defined.

(** In binary64 the markup [1.1 + 10/100] is not the number [1.2], and the
    price returned for the docstring's example is not the number
    [17.988]. *)
Lemma docstring_example_not_17_988 :
  markup_of 80 ≠ Ok (F64.decimal 12 10)
  ∧ calculate_price (F64.decimal 1599 100)
      (snapshot (F64.decimal 28315 100) "Rain") 80
      [F64.decimal 1499 100; F64.decimal 1699 100]
    ≠ Ok (F64.decimal 17988 1000).
Proof. split; vm_compute; discriminate. Qed.


(** C4 fails at busy level 100: in freezing weather, with base price 9.99
    and one competitor at 10.0, the markup is [1.4000000000000001] and the
    price [14.000000000000002], above [1.3 * 10.0] (and it is neither the
    lowest competitor price nor the base price).  The markup stays within
    [1.3] up to busy level 90 and exceeds it from 91 to 100. *)
Theorem markup_exceeds_documented_range :
  let base := F64.decimal 999 100 in
  let lowest := F64.of_Z 10 in
  let markup := S754_finite false 6305039478318695 (-52) in
  let price := S754_finite false 7881299347898369 (-49) in
  markup_of 100 = Ok markup
  ∧ F64.ltb (F64.decimal 13 10) markup = true
  ∧ calculate_price base (snapshot (F64.decimal 27315 100) "Clear") 100 [lowest]
    = Ok price
  ∧ price = F64.mul lowest markup
  ∧ F64.ltb (F64.mul (F64.decimal 13 10) lowest) price = true
  ∧ F64.ltb base price = true
  ∧ F64.to_Q price = Some (7881299347898369 # 2 ^ 49)%Q
  ∧ (14 < 7881299347898369 # 2 ^ 49)%Q
  ∧ forallb (markup_le (F64.decimal 13 10)) (seqZ 71 20) = true
  ∧ forallb (markup_gt (F64.decimal 13 10)) (seqZ 91 10) = true.
Proof. repeat split; vm_compute; reflexivity. Qed.

(** What does hold of C4: on non-negative prices and a busy level from 0 to
    100 [calculate_price] returns a non-negative price, which is either the
    lowest competitor price or [max(lowest * markup, base_price)] for a
    markup above [1.1] and at most [1.4000000000000001]. *)
Lemma calculate_price_invariant (base t : float) (c : string) (busy : Z)
    (p : float) (ps : list float) :
  F64.leb (F64.of_Z 0) base = true →
  Forall (λ x, F64.leb (F64.of_Z 0) x = true) (p :: ps) →
  0 ≤ busy ≤ 100 →
  ∃ r, calculate_price base (snapshot t c) busy (p :: ps) = Ok r
       ∧ F64.leb (F64.of_Z 0) r = true
       ∧ (r = py_min p ps
          ∨ ∃ markup,
              markup_of busy = Ok markup
              ∧ F64.ltb (F64.decimal 11 10) markup = true
              ∧ F64.leb markup (S754_finite false 6305039478318695 (-52))
                = true
              ∧ r = py_max (F64.mul (py_min p ps) markup) base
              ∧ F64.ltb r base = false).
Proof.
  intros Hbase Hps Hbusy.
  apply nonneg_float_leb in Hbase.
  assert (Hmin : nonneg_float (py_min p ps)).
  { apply py_min_nonneg. eapply Forall_impl; [exact Hps|].
    intros x. apply nonneg_float_leb. }
  rewrite calculate_price_snapshot.
  destruct ((F64.ltb (kelvin_to_fahrenheit t) (F64.of_Z 45)
             || bool_decide (c ∈ adverse)) && (70 <? busy)) eqn:Hcond.
  - apply andb_true_iff in Hcond as [_ Hgt%Z.ltb_lt].
    destruct (markup_of_busy busy) as (m & e & Hm & Hlo & Hhi); [lia|].
    rewrite Hm, bind_Ok. eexists. split; [reflexivity|]. split.
    + apply nonneg_float_leb, py_max_nonneg; [by apply mul_nonneg | done].
    + right. eexists. repeat split; try done. apply py_max_not_below.
  - eexists. split; [reflexivity|]. split; [by apply nonneg_float_leb | by left].
Qed.

(** ** The view *)

Lemma weather_conditions_default (main : gmap string pyval) :
  main !! "weather" = None →
  weather_conditions_of (PDict main) = Ok (PStr "Clear").
Proof.
  intros Hw. unfold weather_conditions_of, dict_get. rewrite Hw. reflexivity.
Qed.

(** C9. The view hands [weather_data.get('main', {})] to
    [calculate_price].  When that dictionary has no ['weather'] key, as in
    the documented response of the weather service, the condition read
    inside [calculate_price] is ['Clear'] and [bad_weather] is false,
    whatever the response says under its own ['weather'] key; at the view's
    busy level the item is marked up exactly when the Fahrenheit temperature
    is below 45, and priced at the lowest competitor price otherwise. *)
Theorem view_condition_always_clear (item : menu_item) (results : list pyval)
    (weather_data main : gmap string pyval) (place_id : string)
    (menu_items : list quote) (p : float) (ps : list float) (temp_f : float) :
  dict_get (PDict weather_data) "main" (PDict ∅) = Ok (PDict main) →
  main !! "weather" = None →
  competitor_loop (item_price item) (take 5 results) [] = Ok (p :: ps) →
  temp_f_of (PDict main) = Ok temp_f →
  weather_conditions_of (PDict main) = Ok (PStr "Clear")
  ∧ bad_weather_of (PStr "Clear") = false
  ∧ price_item item results (PDict weather_data)
      (get_place_busy_times place_id) menu_items =
      if F64.ltb temp_f (F64.of_Z 45)
      then
        markup ← markup_of (get_place_busy_times place_id);
        append_quote item
          (py_max (F64.mul (py_min p ps) markup) (item_price item)) menu_items
      else append_quote item (py_min p ps) menu_items.
Proof.
  intros Hmain Hw Hloop Htemp.
  pose proof (weather_conditions_default main Hw) as Hcond.
  split; [exact Hcond|]. split; [reflexivity|].
  unfold price_item. rewrite Hloop, bind_Ok, Hmain, bind_Ok.
  unfold calculate_price. rewrite Htemp, Hcond, !bind_Ok.
  change (bad_weather_of (PStr "Clear")) with false.
  change (70 <? get_place_busy_times place_id) with true.
  rewrite orb_false_r, andb_true_r.
  destruct (F64.ltb temp_f (F64.of_Z 45)); [|reflexivity].
  by destruct (markup_of (get_place_busy_times place_id)).
Qed.

Lemma view_condition_always_clear_witness :
  let item := {| item_name := "Naan"; item_price := F64.decimal 399 100 |} in
  let results := [PDict {[ "price_level" := PInt 2 ]}] in
  let main : gmap string pyval :=
    {[ "temp" := PFloat (F64.decimal 28315 100) ]} in
  let weather_data : gmap string pyval :=
    {[ "main" := PDict main;
       "weather" := PList [PDict {[ "main" := PStr "Rain" ]}] ]} in
  let p := F64.decimal 399 100 in
  let temp_f := F64.of_Z 50 in
  dict_get (PDict weather_data) "main" (PDict ∅) = Ok (PDict main)
  ∧ (main !! "weather" = None)
  ∧ competitor_loop (item_price item) (take 5 results) [] = Ok [p]
  ∧ temp_f_of (PDict main) = Ok temp_f
  ∧ weather_conditions_of (PDict main) = Ok (PStr "Clear")
  ∧ bad_weather_of (PStr "Clear") = false
  ∧ price_item item results (PDict weather_data)
      (get_place_busy_times "ChIJ") [] =
      if F64.ltb temp_f (F64.of_Z 45)
      then
        markup ← markup_of (get_place_busy_times "ChIJ");
        append_quote item
          (py_max (F64.mul (py_min p []) markup) (item_price item)) []
      else append_quote item (py_min p []) [].
Proof.
  intros item results main weather_data p temp_f.
  assert (H1 : dict_get (PDict weather_data) "main" (PDict ∅) =
               Ok (PDict main)) by reflexivity.
  assert (H2 : main !! "weather" = None) by reflexivity.
  assert (H3 : competitor_loop (item_price item) (take 5 results) [] =
               Ok [p]) by (vm_compute; reflexivity).
  assert (H4 : temp_f_of (PDict main) = Ok temp_f) by (vm_compute; reflexivity).
  split; [exact H1|]. split; [exact H2|]. split; [exact H3|].
  split; [exact H4|].
  exact (view_condition_always_clear item results weather_data main "ChIJ"
           [] p [] temp_f H1 H2 H3 H4).
Defined.

(** One round of the loop either leaves [menu_items] alone, for an item
    without competitor prices, or appends the item's entry. *)
Lemma price_item_inv (item : menu_item) (results : list pyval)
    (weather_data : pyval) (busy : Z) (menu_items menu_items' : list quote) :
  price_item item results weather_data busy menu_items = Ok menu_items' →
  (has_competitors results item = false ∧ menu_items' = menu_items)
  ∨ (has_competitors results item = true
     ∧ ∃ q, quoted results weather_data busy item q
            ∧ menu_items' = menu_items ++ [q]).
Proof.
  unfold price_item, has_competitors. intros H.
  apply bind_Ok_inv in H as (cps & Hloop & H). rewrite Hloop.
  destruct cps as [|c cs].
  - left. by injection H as <-.
  - right. split; [reflexivity|].
    apply bind_Ok_inv in H as (main & Hmain & H).
    apply bind_Ok_inv in H as (new & Hnew & H).
    unfold append_quote in H.
    apply bind_Ok_inv in H as (change & Hchange & H).
    injection H as <-.
    unfold float_truediv in Hchange.
    destruct (F64.is_zero (item_price item)); [discriminate|].
    injection Hchange as <-.
    eexists. split; [|reflexivity].
    split; simpl; try reflexivity.
    exists (c :: cs), main. by repeat split.
Qed.

Lemma menu_loop_inv (items : list menu_item) (results : list pyval)
    (weather_data : pyval) (busy : Z) (menu_items out : list quote) :
  menu_loop items results weather_data busy menu_items = Ok out →
  ∃ qs, out = menu_items ++ qs
        ∧ Forall2 (quoted results weather_data busy)
            (List.filter (has_competitors results) items) qs.
Proof.
  revert menu_items. induction items as [|item rest IH]; intros acc H; simpl in *.
  - injection H as <-. exists []. split; [by rewrite app_nil_r | constructor].
  - apply bind_Ok_inv in H as (acc' & Hitem & Hrest).
    apply IH in Hrest as (qs & -> & Hqs).
    apply price_item_inv in Hitem as [[Hno ->]|(Hyes & q & Hq & ->)].
    + rewrite Hno. eauto.
    + rewrite Hyes. exists (q :: qs). split; [by rewrite <- app_assoc|].
      by constructor.
Qed.

(** The derived competitor list has the same length for every item. *)
Lemma competitor_loop_shape (price price' : float) (restaurants : list pyval)
    (acc acc' : list float) :
  length acc = length acc' →
  match competitor_loop price restaurants acc,
        competitor_loop price' restaurants acc' with
  | Ok l, Ok l' => length l = length l'
  | Raise e, Raise e' => e = e'
  | _, _ => False
  end.
Proof.
  revert acc acc'. induction restaurants as [|r rs IH]; intros acc acc' Hlen.
  - exact Hlen.
  - simpl. destruct (dict_get r "price_level" PNone) as [level|e]; [|done].
    rewrite !bind_Ok. destruct (truthy level); [|by apply IH].
    destruct (truediv_int level 2) as [half|e]; [|done].
    rewrite !bind_Ok. apply IH. rewrite !length_app. simpl. lia.
Qed.

Lemma has_competitors_item_independent (results : list pyval)
    (item item' : menu_item) :
  has_competitors results item = has_competitors results item'.
Proof.
  unfold has_competitors.
  pose proof (competitor_loop_shape (item_price item) (item_price item')
                (take 5 results) [] [] eq_refl) as H.
  destruct (competitor_loop (item_price item) (take 5 results) [])
    as [[|? ?]|?],
    (competitor_loop (item_price item') (take 5 results) [])
    as [[|? ?]|?]; done.
Qed.

(** *** The loop completes on documented responses *)

Section Completion.

Variables (results : list pyval) (weather_data : pyval) (busy : Z).
Hypothesis results_documented : Forall documented_restaurant (take 5 results).
Hypothesis weather_documented : documented_weather weather_data.
Hypothesis busy_percentage : 0 ≤ busy ≤ 100.

Lemma int_truediv_level (z : Z) : 0 ≤ z ≤ 4 → ∃ q, int_truediv z 2 = Ok q.
Proof.
  intros Hz.
  assert (z = 0 ∨ z = 1 ∨ z = 2 ∨ z = 3 ∨ z = 4) as [->|[->|[->|[->| ->]]]]
    by lia; vm_compute; eauto.
Qed.

Lemma competitor_loop_total (price : float) (restaurants : list pyval)
    (acc : list float) :
  Forall documented_restaurant restaurants →
  ∃ cps, competitor_loop price restaurants acc = Ok cps.
Proof.
  intros Hrs. revert acc.
  induction Hrs as [|r rs (d & -> & Hlevel) _ IH]; intros acc; simpl.
  - eauto.
  - destruct Hlevel as [->|(z & -> & Hz)]; simpl; [apply IH|].
    destruct (z =? 0); simpl; [apply IH|].
    destruct (int_truediv_level z Hz) as [q ->]. apply IH.
Qed.

Lemma calculate_price_total (base : float) (main : gmap string pyval)
    (cps : list float) :
  documented_main main →
  ∃ r, calculate_price base (PDict main) busy cps = Ok r.
Proof.
  intros [Hw Ht]. destruct cps as [|p ps]; [by eexists|].
  unfold calculate_price.
  rewrite (weather_conditions_default main Hw).
  assert (∃ tf, temp_f_of (PDict main) = Ok tf) as [tf ->].
  { unfold temp_f_of, dict_get. destruct Ht as [->|[t ->]]; by eexists. }
  rewrite !bind_Ok.
  destruct (_ && _); [|by eexists].
  destruct (markup_of_percentage busy busy_percentage) as (m & e & ->).
  by eexists.
Qed.

Lemma price_item_total (item : menu_item) (menu_items : list quote) :
  F64.is_zero (item_price item) = false →
  ∃ menu_items',
    price_item item results weather_data busy menu_items = Ok menu_items'.
Proof.
  intros Hprice. unfold price_item.
  destruct (competitor_loop_total (item_price item) (take 5 results) []
              results_documented) as [cps ->].
  rewrite bind_Ok. destruct cps as [|c cs]; [by eexists|].
  destruct weather_documented as (d & -> & Hmain).
  assert (∃ main, dict_get (PDict d) "main" (PDict ∅) = Ok (PDict main)
                  ∧ documented_main main) as (main & -> & Hdoc).
  { unfold dict_get. destruct Hmain as [->|(main & -> & Hdoc)].
    - exists ∅. split; [reflexivity|]. split; [reflexivity | by left].
    - by exists main. }
  rewrite bind_Ok.
  destruct (calculate_price_total (item_price item) main (c :: cs) Hdoc)
    as [new ->].
  rewrite bind_Ok. unfold append_quote, float_truediv. rewrite Hprice.
  by eexists.
Qed.

Lemma menu_loop_total (items : list menu_item) (menu_items : list quote) :
  Forall (λ item, F64.is_zero (item_price item) = false) items →
  ∃ out, menu_loop items results weather_data busy menu_items = Ok out.
Proof.
  intros Hitems. revert menu_items.
  induction Hitems as [|item rest Hitem _ IH]; intros acc; simpl.
  - by eexists.
  - destruct (price_item_total item acc Hitem) as [acc' ->]. apply IH.
Qed.

End Completion.

(** C7. When the loop over the menu items completes, its output consists of
    the entries of exactly the items whose derived competitor list is not
    empty, in the order of the input; an item with an empty list has no
    entry at all, and each entry reports
    [price_change = (new_price - price) / price * 100].  The loop completes
    on documented responses, a busy level from 0 to 100 and items whose
    price is not zero. *)
Theorem price_menu_entries (items : list menu_item) (results : list pyval)
    (weather_data : pyval) (busy : Z) :
  (∀ out, price_menu items results weather_data busy = Ok out →
     Forall2 (quoted results weather_data busy)
       (List.filter (has_competitors results) items) out
     ∧ name <$> out =
         item_name <$> List.filter (has_competitors results) items
     ∧ Forall (λ q, price_change q =
                      percent_change (new_price q) (original_price q)) out)
  ∧ (Forall (λ item, F64.is_zero (item_price item) = false) items →
     Forall documented_restaurant (take 5 results) →
     documented_weather weather_data →
     0 ≤ busy ≤ 100 →
     ∃ out, price_menu items results weather_data busy = Ok out).
Proof.
  split.
  - intros out H. apply menu_loop_inv in H as (qs & -> & Hqs). simpl.
    split; [exact Hqs|]. split.
    + induction Hqs as [|item q its qs' Hq _ IH]; [reflexivity|].
      rewrite !fmap_cons, IH. f_equal. apply Hq.
    + induction Hqs as [|item q its qs' Hq _ IH]; constructor; [|exact IH].
      destruct Hq as [_ Ho _ Hc]. by rewrite Ho.
  - intros Hitems Hres Hw Hb. by apply menu_loop_total.
Qed.

Lemma price_menu_entries_witness :
  let items := sample_menu_items in
  let results :=
    [ PDict {[ "price_level" := PInt 2 ]}; PDict ∅;
      PDict {[ "price_level" := PInt 3 ]} ] in
  let weather_data :=
    PDict {[ "main" := PDict {[ "temp" := PFloat (F64.of_Z 270) ]} ]} in
  let out :=
    [ {| name := "Butter Chicken";
         original_price := S754_finite false 4782259854314045 (-48);
         new_price := S754_finite false 5499598832461152 (-48);
         price_change := S754_finite false 8444249301319683 (-49) |};
      {| name := "Chicken Tikka Masala";
         original_price := S754_finite false 9001569755206779 (-49);
         new_price := S754_finite false 5175902609243899 (-48);
         price_change := S754_finite false 8444249301319694 (-49) |};
      {| name := "Vegetable Biryani";
         original_price := S754_finite false 8438619801785467 (-49);
         new_price := S754_finite false 4852206386026644 (-48);
         price_change := S754_finite false 8444249301319686 (-49) |};
      {| name := "Naan";
         original_price := S754_finite false 8984681256604140 (-51);
         new_price := S754_finite false 5166191722547381 (-50);
         price_change := S754_finite false 8444249301319686 (-49) |} ] in
  price_menu items results weather_data 75 = Ok out
  ∧ Forall (λ item, F64.is_zero (item_price item) = false) items
  ∧ Forall documented_restaurant (take 5 results)
  ∧ documented_weather weather_data
  ∧ 0 ≤ 75 ≤ 100
  ∧ (Forall2 (quoted results weather_data 75)
       (List.filter (has_competitors results) items) out
     ∧ name <$> out =
         item_name <$> List.filter (has_competitors results) items
     ∧ Forall (λ q, price_change q =
                      percent_change (new_price q) (original_price q)) out)
  ∧ ∃ out', price_menu items results weather_data 75 = Ok out'.
Proof.
  intros items results weather_data out.
  assert (H : price_menu items results weather_data 75 = Ok out)
    by (vm_compute; reflexivity).
  assert (Hitems : Forall (λ item, F64.is_zero (item_price item) = false)
                     items) by (repeat constructor).
  assert (Hres : Forall documented_restaurant (take 5 results)).
  { simpl. repeat constructor.
    - eexists. split; [reflexivity|]. right. exists 2. split; [reflexivity|lia].
    - eexists. split; [reflexivity|]. by left.
    - eexists. split; [reflexivity|]. right. exists 3. split; [reflexivity|lia]. }
  assert (Hw : documented_weather weather_data).
  { eexists. split; [reflexivity|]. right. eexists. split; [reflexivity|].
    split; [reflexivity|]. right. by eexists. }
  assert (Hb : 0 ≤ 75 ≤ 100) by lia.
  split; [exact H|]. split; [exact Hitems|]. split; [exact Hres|].
  split; [exact Hw|]. split; [exact Hb|].
  destruct (price_menu_entries items results weather_data 75) as [Hout Htot].
  split; [exact (Hout out H) | exact (Htot Hitems Hres Hw Hb)].
Defined.

(** Without a priced competitor nearby the loop reports no item at all. *)
Lemma price_menu_no_competitors (items : list menu_item)
    (weather_data : pyval) (busy : Z) :
  price_menu items [PDict ∅; PDict {[ "price_level" := PInt 0 ]}]
    weather_data busy = Ok [].
Proof.
  unfold price_menu. induction items as [|item rest IH]; [reflexivity|].
  exact IH.
Qed.

(** * Further properties *)

(** ** [calculate_price] *)

(** X1. At a busy level of at most 70 the weather plays no part: on every
    snapshot [calculate_price] returns one of the competitor prices, and no
    competitor price compares below it. *)
Theorem calculate_price_undercuts (base t : float) (c : string) (busy : Z)
    (p : float) (ps : list float) :
  busy ≤ 70 →
  ∃ r, calculate_price base (snapshot t c) busy (p :: ps) = Ok r
       ∧ r ∈ p :: ps
       ∧ ∀ z, z ∈ p :: ps → F64.ltb z r = false.
Proof.
  intros Hb. exists (py_min p ps). split.
  - rewrite calculate_price_snapshot.
    replace (70 <? busy) with false by (symmetry; apply Z.ltb_ge; lia).
    by rewrite andb_false_r.
  - split; [apply py_min_elem | apply py_min_lower_bound].
Qed.

Lemma calculate_price_undercuts_witness :
  let base := F64.decimal 1599 100 in
  let t := F64.of_Z 250 in
  let p := F64.decimal 1699 100 in
  let ps := [F64.decimal 1499 100; F64.decimal 1899 100] in
  50 ≤ 70
  ∧ ∃ r, calculate_price base (snapshot t "Snow") 50 (p :: ps) = Ok r
         ∧ r ∈ p :: ps
         ∧ ∀ z, z ∈ p :: ps → F64.ltb z r = false.
Proof.
  intros base t p ps.
  assert (Hb : 50 ≤ 70) by lia.
  split; [exact Hb|].
  exact (calculate_price_undercuts base t "Snow" 50 p ps Hb).
Defined.

(** X2. [calculate_price] never turns non-negative prices into a negative
    one: whatever the weather argument, for a busy level of at most 100 a
    price it returns on a non-negative base price and non-negative
    competitor prices is non-negative. *)
Theorem calculate_price_never_negative (base : float) (weather_data : pyval)
    (busy : Z) (prices : list float) (r : float) :
  F64.leb (F64.of_Z 0) base = true →
  Forall (λ x, F64.leb (F64.of_Z 0) x = true) prices →
  busy ≤ 100 →
  calculate_price base weather_data busy prices = Ok r →
  F64.leb (F64.of_Z 0) r = true.
Proof.
  intros Hbase Hps Hbusy Hr.
  destruct prices as [|p ps]; [by injection Hr as <-|].
  assert (Hmin : nonneg_float (py_min p ps)).
  { apply py_min_nonneg. eapply Forall_impl; [exact Hps|].
    intros x. apply nonneg_float_leb. }
  unfold calculate_price in Hr.
  apply bind_Ok_inv in Hr as (tf & _ & Hr).
  apply bind_Ok_inv in Hr as (wc & _ & Hr).
  destruct ((F64.ltb tf (F64.of_Z 45) || bad_weather_of wc) && (70 <? busy))
    eqn:Hcond.
  - apply andb_true_iff in Hcond as [_ Hgt%Z.ltb_lt].
    destruct (markup_of_busy busy) as (m & e & Hm & _); [lia|].
    rewrite Hm, bind_Ok in Hr. injection Hr as <-.
    apply nonneg_float_leb, py_max_nonneg;
      [by apply mul_nonneg | by apply nonneg_float_leb].
  - injection Hr as <-. by apply nonneg_float_leb.
Qed.

Lemma calculate_price_never_negative_witness :
  let base := F64.decimal 1599 100 in
  let weather_data := PDict {[ "temp" := PInt 260 ]} in
  let prices := [F64.decimal 1499 100; F64.of_Z 0] in
  let r := F64.decimal 1599 100 in
  F64.leb (F64.of_Z 0) base = true
  ∧ Forall (λ x, F64.leb (F64.of_Z 0) x = true) prices
  ∧ 100 ≤ 100
  ∧ calculate_price base weather_data 100 prices = Ok r
  ∧ F64.leb (F64.of_Z 0) r = true.
Proof.
  intros base weather_data prices r.
  assert (H1 : F64.leb (F64.of_Z 0) base = true) by reflexivity.
  assert (H2 : Forall (λ x, F64.leb (F64.of_Z 0) x = true) prices)
    by (repeat constructor).
  assert (H3 : 100 ≤ 100) by lia.
  assert (H4 : calculate_price base weather_data 100 prices = Ok r)
    by (vm_compute; reflexivity).
  split; [exact H1|]. split; [exact H2|]. split; [exact H3|].
  split; [exact H4|].
  exact (calculate_price_never_negative base weather_data 100 prices r
           H1 H2 H3 H4).
Defined.

Lemma markup_lt_pairs :
  forallb (λ b1, forallb (λ b2, implb (b1 <? b2) (markup_lt b1 b2))
                   (seqZ 71 30))
    (seqZ 71 30) = true.
Proof. vm_compute. reflexivity. Qed.

(** X3. Between 71 and 100 a higher busy level gives a strictly higher
    markup. *)
Theorem markup_increases_with_busy_level (b1 b2 : Z) :
  70 < b1 → b1 < b2 → b2 ≤ 100 →
  ∃ m1 m2, markup_of b1 = Ok m1 ∧ markup_of b2 = Ok m2
           ∧ F64.ltb m1 m2 = true.
Proof.
  intros H1 H12 H2.
  assert (Hin1 : In b1 (seqZ 71 30))
    by (apply list_elem_of_In, elem_of_seqZ; lia).
  assert (Hin2 : In b2 (seqZ 71 30))
    by (apply list_elem_of_In, elem_of_seqZ; lia).
  pose proof (proj1 (forallb_forall _ _) markup_lt_pairs _ Hin1) as H.
  pose proof (proj1 (forallb_forall _ _) H _ Hin2) as H'.
  simpl in H'. replace (b1 <? b2) with true in H'
    by (symmetry; by apply Z.ltb_lt).
  simpl in H'. unfold markup_lt in H'.
  destruct (markup_of b1) as [m1|]; [|discriminate].
  destruct (markup_of b2) as [m2|]; [|discriminate].
  by exists m1, m2.
Qed.

Lemma markup_increases_with_busy_level_witness :
  70 < 75 ∧ 75 < 90 ∧ 90 ≤ 100
  ∧ ∃ m1 m2, markup_of 75 = Ok m1 ∧ markup_of 90 = Ok m2
             ∧ F64.ltb m1 m2 = true.
Proof.
  assert (H1 : 70 < 75) by lia.
  assert (H2 : 75 < 90) by lia.
  assert (H3 : 90 ≤ 100) by lia.
  split; [exact H1|]. split; [exact H2|]. split; [exact H3|].
  exact (markup_increases_with_busy_level 75 90 H1 H2 H3).
Defined.

(** X4. A ['temp'] that is no number ([None], a [str], a [list], a [dict])
    makes [calculate_price] raise [TypeError] on every non-empty competitor
    list, also at a busy level where the temperature could not matter; with
    an empty list the base price is returned all the same. *)
Theorem calculate_price_temp_not_a_number (base : float)
    (d : gmap string pyval) (v : pyval) (busy : Z) (p : float)
    (ps : list float) :
  d !! "temp" = Some v →
  not_a_number v = true →
  calculate_price base (PDict d) busy (p :: ps) = Raise TypeError
  ∧ calculate_price base (PDict d) busy [] = Ok base.
Proof.
  intros Hd Hv. split; [|reflexivity].
  unfold calculate_price, temp_f_of, dict_get. rewrite Hd. simpl.
  by destruct v.
Qed.

Lemma calculate_price_temp_not_a_number_witness :
  let d : gmap string pyval :=
    {[ "temp" := PNone;
       "weather" := PList [PDict {[ "main" := PStr "Clear" ]}] ]} in
  let base := F64.decimal 1599 100 in
  let p := F64.decimal 1499 100 in
  (d !! "temp" = Some PNone)
  ∧ not_a_number PNone = true
  ∧ calculate_price base (PDict d) 50 [p] = Raise TypeError
  ∧ calculate_price base (PDict d) 50 [] = Ok base.
Proof.
  intros d base p.
  assert (H1 : d !! "temp" = Some PNone) by reflexivity.
  assert (H2 : not_a_number PNone = true) by reflexivity.
  split; [exact H1|]. split; [exact H2|].
  exact (calculate_price_temp_not_a_number base d PNone 50 p [] H1 H2).
Defined.

(** X5. The default condition only stands in for a missing ['weather'] key:
    on an empty ['weather'] list [calculate_price] raises [IndexError] for
    every non-empty competitor list, once the temperature has been read. *)
Theorem calculate_price_empty_weather_list (base : float)
    (d : gmap string pyval) (temp_f : float) (busy : Z) (p : float)
    (ps : list float) :
  d !! "weather" = Some (PList []) →
  temp_f_of (PDict d) = Ok temp_f →
  calculate_price base (PDict d) busy (p :: ps) = Raise IndexError.
Proof.
  intros Hw Ht. unfold calculate_price. rewrite Ht, bind_Ok.
  unfold weather_conditions_of, dict_get. by rewrite Hw.
Qed.

Lemma calculate_price_empty_weather_list_witness :
  let d : gmap string pyval :=
    {[ "temp" := PFloat (F64.decimal 29315 100); "weather" := PList [] ]} in
  let base := F64.decimal 1599 100 in
  let p := F64.decimal 1499 100 in
  (d !! "weather" = Some (PList []))
  ∧ temp_f_of (PDict d) = Ok (F64.of_Z 68)
  ∧ calculate_price base (PDict d) 50 [p] = Raise IndexError.
Proof.
  intros d base p.
  assert (H1 : d !! "weather" = Some (PList [])) by reflexivity.
  assert (H2 : temp_f_of (PDict d) = Ok (F64.of_Z 68))
    by (vm_compute; reflexivity).
  split; [exact H1|]. split; [exact H2|].
  exact (calculate_price_empty_weather_list base d (F64.of_Z 68) 50 p []
           H1 H2).
Defined.

(** X6. Only the first entry of the ['weather'] list counts: replacing the
    entries after it changes nothing in what [calculate_price] returns. *)
Theorem calculate_price_first_condition_only (base : float)
    (d : gmap string pyval) (first : pyval) (others others' : list pyval)
    (busy : Z) (prices : list float) :
  calculate_price base (PDict (<["weather" := PList (first :: others)]> d))
    busy prices
  = calculate_price base (PDict (<["weather" := PList (first :: others')]> d))
      busy prices.
Proof.
  unfold calculate_price, temp_f_of, weather_conditions_of, dict_get.
  rewrite !lookup_insert_eq, !lookup_insert_ne by done. reflexivity.
Qed.

(** ** The pricing loop *)

Lemma competitor_loop_length (price : float) (restaurants : list pyval)
    (acc cps : list float) :
  competitor_loop price restaurants acc = Ok cps →
  length cps = (length acc + length (List.filter priced restaurants))%nat.
Proof.
  revert acc. induction restaurants as [|r rs IH]; intros acc H; simpl in *.
  - injection H as <-. lia.
  - unfold priced at 1.
    destruct (dict_get r "price_level" PNone) as [level|e]; [|discriminate].
    rewrite bind_Ok in H. destruct (truthy level).
    + apply bind_Ok_inv in H as (half & _ & H). apply IH in H.
      rewrite length_app in H. simpl in *. lia.
    + by apply IH in H.
Qed.

Lemma price_item_first_five (item : menu_item) (results : list pyval)
    (weather_data : pyval) (busy : Z) (menu_items : list quote) :
  price_item item results weather_data busy menu_items =
  price_item item (take 5 results) weather_data busy menu_items.
Proof.
  unfold price_item. rewrite take_take.
  by replace (5 `min` 5)%nat with 5%nat by reflexivity.
Qed.

Lemma menu_loop_first_five (items : list menu_item) (results : list pyval)
    (weather_data : pyval) (busy : Z) (menu_items : list quote) :
  menu_loop items results weather_data busy menu_items =
  menu_loop items (take 5 results) weather_data busy menu_items.
Proof.
  revert menu_items. induction items as [|item rest IH]; intros acc; simpl.
  - reflexivity.
  - rewrite <- price_item_first_five.
    destruct (price_item item results weather_data busy acc) as [acc'|e];
      [apply IH | reflexivity].
Qed.

(** X7. Only the first five nearby restaurants enter the prices: the loop
    gives the same on [results] and on its first five entries, and an item's
    competitor list has one price for each of these with a truthy
    ['price_level'], so five at most. *)
Theorem competitor_prices_from_first_five (items : list menu_item)
    (results : list pyval) (weather_data : pyval) (busy : Z) :
  price_menu items results weather_data busy =
    price_menu items (take 5 results) weather_data busy
  ∧ ∀ item cps,
      competitor_loop (item_price item) (take 5 results) [] = Ok cps →
      length cps = length (List.filter priced (take 5 results))
      ∧ (length cps ≤ 5)%nat.
Proof.
  split; [apply menu_loop_first_five|].
  intros item cps H. apply competitor_loop_length in H. simpl in H.
  split; [exact H|]. rewrite H.
  etransitivity; [apply List.filter_length_le|].
  rewrite length_take. lia.
Qed.

Lemma price_menu_shape (items : list menu_item) (results : list pyval)
    (weather_data : pyval) (busy : Z) (out : list quote) :
  price_menu items results weather_data busy = Ok out →
  out = [] ∨ name <$> out = item_name <$> items.
Proof.
  intros H. apply menu_loop_inv in H as (qs & -> & Hqs). simpl.
  destruct items as [|item0 rest]; [left; by inversion Hqs|].
  destruct (has_competitors results item0) eqn:H0.
  - right.
    assert (Hall : List.filter (has_competitors results) (item0 :: rest)
                   = item0 :: rest).
    { apply forallb_filter_id, forallb_forall. intros item _.
      by rewrite (has_competitors_item_independent results item item0). }
    rewrite Hall in Hqs. clear Hall H0.
    induction Hqs as [|item q its qs' Hq _ IH]; [reflexivity|].
    rewrite !fmap_cons, IH. f_equal. apply Hq.
  - left.
    assert (Hnone : List.filter (has_competitors results) (item0 :: rest)
                    = []).
    { generalize (item0 :: rest). intros l.
      induction l as [|item l IH]; [reflexivity|]. simpl.
      by rewrite (has_competitors_item_independent results item item0), H0. }
    rewrite Hnone in Hqs. by inversion Hqs.
Qed.

(** X8. The loop reports all items or none: when it completes, its output
    is empty or has one entry for each item, in order. *)
Theorem price_menu_all_or_nothing (items : list menu_item)
    (results : list pyval) (weather_data : pyval) (busy : Z)
    (out : list quote) :
  price_menu items results weather_data busy = Ok out →
  out = [] ∨ name <$> out = item_name <$> items.
Proof. apply price_menu_shape. Qed.

Lemma price_menu_all_or_nothing_witness :
  let results :=
    [ PDict {[ "name" := PStr "Diner" ]};
      PDict {[ "name" := PStr "Bistro"; "price_level" := PInt 2 ]};
      PDict {[ "name" := PStr "Grill"; "price_level" := PInt 3 ]} ] in
  let weather_data :=
    PDict {[ "main" := PDict {[ "temp" := PFloat (F64.of_Z 270) ]} ]} in
  let out :=
    [ {| name := "Butter Chicken";
         original_price := S754_finite false 4782259854314045 (-48);
         new_price := S754_finite false 5499598832461152 (-48);
         price_change := S754_finite false 8444249301319683 (-49) |};
      {| name := "Chicken Tikka Masala";
         original_price := S754_finite false 9001569755206779 (-49);
         new_price := S754_finite false 5175902609243899 (-48);
         price_change := S754_finite false 8444249301319694 (-49) |};
      {| name := "Vegetable Biryani";
         original_price := S754_finite false 8438619801785467 (-49);
         new_price := S754_finite false 4852206386026644 (-48);
         price_change := S754_finite false 8444249301319686 (-49) |};
      {| name := "Naan";
         original_price := S754_finite false 8984681256604140 (-51);
         new_price := S754_finite false 5166191722547381 (-50);
         price_change := S754_finite false 8444249301319686 (-49) |} ] in
  price_menu sample_menu_items results weather_data 75 = Ok out
  ∧ (out = [] ∨ name <$> out = item_name <$> sample_menu_items)
  ∧ out ≠ []
  ∧ name <$> out =
      ["Butter Chicken"; "Chicken Tikka Masala"; "Vegetable Biryani"; "Naan"].
Proof.
  intros results weather_data out.
  assert (H : price_menu sample_menu_items results weather_data 75 = Ok out)
    by (vm_compute; reflexivity).
  split; [exact H|].
  split; [exact (price_menu_all_or_nothing sample_menu_items results
                   weather_data 75 out H)|].
  split; [discriminate | reflexivity].
Defined.

(** ** The page of a restaurant *)

(** X9. The temperature the page shows is the temperature
    [calculate_price] compares with 45: both are computed from
    [weather_data.get('main', {})] by the same conversion. *)
Theorem display_temperature_is_pricing_temperature
    (weather_data main context : pyval) :
  dict_get weather_data "main" (PDict ∅) = Ok main →
  weather_display weather_data = Ok context →
  ∃ d temp_f, context = PDict d
              ∧ temp_f_of main = Ok temp_f
              ∧ d !! "temperature_f" = Some (PFloat temp_f).
Proof.
  intros Hmain H. unfold weather_display in H. rewrite Hmain, bind_Ok in H.
  apply bind_Ok_inv in H as (temp & Htemp & H).
  apply bind_Ok_inv in H as (kelvin & Hk & H).
  apply bind_Ok_inv in H as (cs & _ & H).
  apply bind_Ok_inv in H as (c0 & _ & H).
  apply bind_Ok_inv in H as (condition & _ & H).
  apply bind_Ok_inv in H as (cs' & _ & H).
  apply bind_Ok_inv in H as (c0' & _ & H).
  apply bind_Ok_inv in H as (description & _ & H).
  injection H as <-. eexists _, (kelvin_to_fahrenheit kelvin).
  split; [reflexivity|]. split; [|reflexivity].
  unfold temp_f_of. by rewrite Htemp, bind_Ok, Hk.
Qed.

Lemma display_temperature_is_pricing_temperature_witness :
  let main := PDict {[ "temp" := PInt 283 ]} in
  let weather_data :=
    PDict {[ "main" := main;
             "weather" := PList [PDict {[ "main" := PStr "Rain" ]}] ]} in
  let context :=
    PDict {[ "temperature_f" :=
               PFloat (kelvin_to_fahrenheit (F64.of_Z 283));
             "condition" := PStr "Rain";
             "description" := PStr "Weather data not available" ]} in
  dict_get weather_data "main" (PDict ∅) = Ok main
  ∧ weather_display weather_data = Ok context
  ∧ ∃ d temp_f, context = PDict d
                ∧ temp_f_of main = Ok temp_f
                ∧ d !! "temperature_f" = Some (PFloat temp_f).
Proof.
  intros main weather_data context.
  assert (H1 : dict_get weather_data "main" (PDict ∅) = Ok main)
    by reflexivity.
  assert (H2 : weather_display weather_data = Ok context)
    by (vm_compute; reflexivity).
  split; [exact H1|]. split; [exact H2|].
  exact (display_temperature_is_pricing_temperature weather_data main context
           H1 H2).
Defined.

(** ** [PricingView.get] *)

Lemma truthy_param (GET : gmap string string) (key : string) :
  truthy (param GET key) = false ↔ blank GET key.
Proof.
  unfold param, blank. destruct (GET !! key) as [s|]; simpl.
  - destruct s as [|a s]; simpl.
    + split; [by right | done].
    + split; [done | intros [H|H]; discriminate H].
  - split; [by left | done].
Qed.

Lemma search_view_page (w : world) (GET : gmap string string)
    (search_query : pyval) (r : response) :
  search_view w GET search_query = Ok r →
  ∃ context, r = Render "pricing/search_results.html" context.
Proof.
  unfold search_view. intros H.
  apply bind_Ok_inv in H as (restaurants & _ & H).
  apply bind_Ok_inv in H as (error_message & _ & H).
  injection H as <-. by eexists.
Qed.

Lemma details_view_page (w : world) (selected_place_id : string)
    (r : response) :
  details_view w selected_place_id = Ok r →
  (∃ context, r = Render "pricing/error.html" context)
  ∨ (∃ context, r = Render "pricing/pricing.html" context)
  ∨ (∃ e, r = RenderAnalysisError e).
Proof.
  unfold details_view. intros H.
  apply bind_Ok_inv in H as ([] & _ & H).
  - apply bind_Ok_inv in H as (message & _ & H). injection H as <-.
    left. by eexists.
  - apply bind_Ok_inv in H as (result_ & _ & H).
    destruct (negb (truthy result_)).
    + injection H as <-. left. by eexists.
    + apply bind_Ok_inv in H as (geometry & _ & H).
      apply bind_Ok_inv in H as (location & _ & H).
      apply bind_Ok_inv in H as (latitude & _ & H).
      apply bind_Ok_inv in H as (longitude & _ & H).
      injection H as <-.
      destruct (analysis _ _ _ _ _); right; [left | right]; by eexists.
Qed.

(** X10. The view shows the search form exactly when both ['restaurant']
    and ['place_id'] are absent or empty; no service is consulted for
    it. *)
Theorem get_search_form (w : world) (GET : gmap string string) :
  get w GET = Ok (Render "pricing/search.html" PNone)
  ↔ blank GET "restaurant" ∧ blank GET "place_id".
Proof.
  rewrite <- !truthy_param. unfold get. split.
  - intros H.
    destruct (truthy (param GET "restaurant")),
      (truthy (param GET "place_id")); simpl in H; try done.
    + apply details_view_page in H as [[c H]|[[c H]|[e H]]]; discriminate.
    + apply search_view_page in H as [c H]. discriminate.
    + apply details_view_page in H as [[c H]|[[c H]|[e H]]]; discriminate.
  - intros [-> ->]. reflexivity.
Qed.

Lemma nearby_entries_textsearch (w : world)
    (f : pyval → pyval → pyval → http_reply) (rs : list pyval) :
  nearby_entries (with_textsearch w f) rs = nearby_entries w rs.
Proof.
  induction rs as [|r rs IH]; [reflexivity|].
  simpl. rewrite IH. reflexivity.
Qed.

Lemma details_view_textsearch (w : world)
    (f : pyval → pyval → pyval → http_reply) (place_id : string) :
  details_view (with_textsearch w f) place_id = details_view w place_id.
Proof.
  assert (Ha : ∀ result_ latitude longitude,
             analysis (with_textsearch w f) place_id result_ latitude longitude
             = analysis w place_id result_ latitude longitude).
  { intros result_ latitude longitude. unfold analysis.
    destruct (menu_of _ _ _ _) as [menu_items|e]; [|reflexivity].
    rewrite !bind_Ok.
    change (restaurant_details_display (with_textsearch w f) result_)
      with (restaurant_details_display w result_).
    destruct (restaurant_details_display w result_) as [rd|e]; [|reflexivity].
    rewrite !bind_Ok.
    change (search_nearby_restaurants (with_textsearch w f) latitude longitude)
      with (search_nearby_restaurants w latitude longitude).
    destruct (dict_get _ "results" _) as [results|e]; [|reflexivity].
    rewrite !bind_Ok.
    destruct (slice5_items results) as [restaurants|e]; [|reflexivity].
    rewrite !bind_Ok, nearby_entries_textsearch. reflexivity. }
  unfold details_view.
  change (get_restaurant_details (with_textsearch w f) (PStr place_id))
    with (get_restaurant_details w (PStr place_id)).
  destruct (py_contains _ _) as [[]|e]; try reflexivity.
  rewrite !bind_Ok.
  destruct (dict_get _ "result" _) as [result_|e]; [|reflexivity].
  rewrite !bind_Ok. destruct (negb (truthy result_)); [reflexivity|].
  destruct (dict_get result_ "geometry" _) as [geometry|e]; [|reflexivity].
  rewrite !bind_Ok.
  destruct (dict_get geometry "location" _) as [location|e]; [|reflexivity].
  rewrite !bind_Ok.
  destruct (dict_get location "lat" _) as [latitude|e]; [|reflexivity].
  rewrite !bind_Ok.
  destruct (dict_get location "lng" _) as [longitude|e]; [|reflexivity].
  rewrite !bind_Ok, Ha. reflexivity.
Qed.

(** X11. A non-empty ['place_id'] decides the request: the answer is the
    same for any other parameters beside it and does not depend on the
    text search. *)
Theorem get_place_id_takes_precedence (w : world)
    (f : pyval → pyval → pyval → http_reply) (GET GET' : gmap string string)
    (place_id : string) :
  GET !! "place_id" = Some place_id →
  GET' !! "place_id" = Some place_id →
  place_id ≠ EmptyString →
  get w GET = details_view w place_id
  ∧ get (with_textsearch w f) GET' = get w GET.
Proof.
  intros H H' Hne.
  assert (Ht : ∀ G : gmap string string,
             G !! "place_id" = Some place_id →
             truthy (param G "place_id") = true).
  { intros G HG. unfold param. rewrite HG. simpl.
    destruct place_id; [done | reflexivity]. }
  unfold get. rewrite (Ht GET H), (Ht GET' H'), H, H'. simpl.
  rewrite !andb_false_r. split; [reflexivity|].
  apply details_view_textsearch.
Qed.

Lemma get_place_id_takes_precedence_witness :
  let w := {| textsearch := λ _ _ _, Failure "offline";
              details := λ _, Failure "offline";
              nearbysearch := λ _ _, Failure "offline";
              openweather := λ _ _, Failure "offline";
              google_maps_api_key := None;
              str_capacity := 2 ^ 30 |} in
  let f := λ _ _ _ : pyval, Reply (PDict ∅) in
  let GET : gmap string string :=
    {[ "place_id" := "ChIJ"; "restaurant" := "village" ]} in
  let GET' : gmap string string := {[ "place_id" := "ChIJ" ]} in
  (GET !! "place_id" = Some "ChIJ")
  ∧ (GET' !! "place_id" = Some "ChIJ")
  ∧ "ChIJ" ≠ EmptyString
  ∧ get w GET = details_view w "ChIJ"
  ∧ get (with_textsearch w f) GET' = get w GET.
Proof.
  intros w f GET GET'.
  assert (H1 : GET !! "place_id" = Some "ChIJ") by reflexivity.
  assert (H2 : GET' !! "place_id" = Some "ChIJ") by reflexivity.
  assert (H3 : "ChIJ" ≠ EmptyString) by discriminate.
  split; [exact H1|]. split; [exact H2|]. split; [exact H3|].
  exact (get_place_id_takes_precedence w f GET GET' "ChIJ" H1 H2 H3).
Defined.

(** X12. An ['error_message'] in the details of the place, be it the
    service's own or the one [get_restaurant_details] makes of a failed
    request, is shown on the error page as it is, whatever else the reply
    holds; neither the nearby search nor the weather is looked at. *)
Theorem details_error_message_shown (w : world) (place_id : string)
    (d : gmap string pyval) (message : pyval) (failure : string) :
  (details w (PStr place_id) = Reply (PDict d)
   ∧ d !! "error_message" = Some message)
  ∨ (details w (PStr place_id) = Failure failure
     ∧ message =
         PStr (String.append "Failed to get place details: " failure)) →
  details_view w place_id =
    Ok (Render "pricing/error.html" (PDict {[ "error" := message ]})).
Proof.
  unfold details_view, get_restaurant_details.
  intros [[-> Hm]|[-> ->]]; simpl.
  - rewrite Hm. reflexivity.
  - reflexivity.
Qed.

Lemma details_error_message_shown_witness :
  let w := {| textsearch := λ _ _ _, Failure "offline";
              details := λ _, Failure "timed out";
              nearbysearch := λ _ _, Failure "offline";
              openweather := λ _ _, Failure "offline";
              google_maps_api_key := None;
              str_capacity := 2 ^ 30 |} in
  let message := PStr "Failed to get place details: timed out" in
  ((details w (PStr "ChIJ") = Reply (PDict ∅)
    ∧ (∅ : gmap string pyval) !! "error_message" = Some message)
   ∨ (details w (PStr "ChIJ") = Failure "timed out"
      ∧ message =
          PStr (String.append "Failed to get place details: " "timed out")))
  ∧ details_view w "ChIJ" =
      Ok (Render "pricing/error.html" (PDict {[ "error" := message ]})).
Proof.
  intros w message.
  assert (H : (details w (PStr "ChIJ") = Reply (PDict ∅)
               ∧ (∅ : gmap string pyval) !! "error_message" = Some message)
              ∨ (details w (PStr "ChIJ") = Failure "timed out"
                 ∧ message =
                     PStr (String.append "Failed to get place details: "
                             "timed out")))
    by (right; split; reflexivity).
  split; [exact H|].
  exact (details_error_message_shown w "ChIJ" ∅ message "timed out" H).
Defined.

(** X13. Details without an ['error_message'] whose ['result'] is missing
    or falsy (an empty dictionary, [None]) give the error page
    'Unable to fetch restaurant details'. *)
Theorem details_without_result (w : world) (place_id : string)
    (d : gmap string pyval) :
  details w (PStr place_id) = Reply (PDict d) →
  d !! "error_message" = None →
  truthy (default (PDict ∅) (d !! "result")) = false →
  details_view w place_id =
    Ok (Render "pricing/error.html"
          (PDict {[ "error" := PStr "Unable to fetch restaurant details" ]})).
Proof.
  unfold details_view, get_restaurant_details. intros -> He Hr. simpl.
  rewrite He. simpl. by rewrite Hr.
Qed.

Lemma details_without_result_witness :
  let w := {| textsearch := λ _ _ _, Failure "offline";
              details := λ _, Reply (PDict {[ "status" := PStr "NOT_FOUND" ]});
              nearbysearch := λ _ _, Failure "offline";
              openweather := λ _ _, Failure "offline";
              google_maps_api_key := None;
              str_capacity := 2 ^ 30 |} in
  let d : gmap string pyval := {[ "status" := PStr "NOT_FOUND" ]} in
  details w (PStr "ChIJ") = Reply (PDict d)
  ∧ (d !! "error_message" = None)
  ∧ truthy (default (PDict ∅) (d !! "result")) = false
  ∧ details_view w "ChIJ" =
      Ok (Render "pricing/error.html"
            (PDict {[ "error" := PStr "Unable to fetch restaurant details" ]})).
Proof.
  intros w d.
  assert (H1 : details w (PStr "ChIJ") = Reply (PDict d)) by reflexivity.
  assert (H2 : d !! "error_message" = None) by reflexivity.
  assert (H3 : truthy (default (PDict ∅) (d !! "result")) = false)
    by reflexivity.
  split; [exact H1|]. split; [exact H2|]. split; [exact H3|].
  exact (details_without_result w "ChIJ" d H1 H2 H3).
Defined.

(** X14. A reply of the Places service that is JSON but no object is not
    handled: the list of search results and the page of a place then raise
    out of the view. *)
Theorem non_object_reply_escapes (w : world) (GET : gmap string string)
    (json : pyval) :
  is_dict json = false →
  (∀ query latitude longitude,
     textsearch w query latitude longitude = Reply json) →
  (∀ place_id, details w place_id = Reply json) →
  ¬ (blank GET "restaurant" ∧ blank GET "place_id") →
  ∃ e, get w GET = Raise e.
Proof.
  intros Hj Hs Hd Hb. rewrite <- !truthy_param in Hb. unfold get.
  destruct (truthy (param GET "restaurant")) eqn:Hq,
    (truthy (param GET "place_id")) eqn:Hp; simpl;
    try (exfalso; by apply Hb).
  1,3: unfold details_view, get_restaurant_details; rewrite Hd;
       destruct json as [| | | |s|l|]; try done; simpl; try by eexists.
  - destruct (String.index 0 "error_message" s); simpl; by eexists.
  - destruct (existsb (is_str "error_message") l); simpl; by eexists.
  - destruct (String.index 0 "error_message" s); simpl; by eexists.
  - destruct (existsb (is_str "error_message") l); simpl; by eexists.
  - unfold search_view, search_place. rewrite Hs.
    destruct json; try done; simpl; by eexists.
Qed.

Lemma non_object_reply_escapes_witness :
  let json := PList [PStr "error_message"] in
  let w := {| textsearch := λ _ _ _, Reply json;
              details := λ _, Reply json;
              nearbysearch := λ _ _, Failure "offline";
              openweather := λ _ _, Failure "offline";
              google_maps_api_key := None;
              str_capacity := 2 ^ 30 |} in
  let GET : gmap string string := {[ "place_id" := "ChIJ" ]} in
  is_dict json = false
  ∧ (∀ query latitude longitude,
       textsearch w query latitude longitude = Reply json)
  ∧ (∀ place_id, details w place_id = Reply json)
  ∧ ¬ (blank GET "restaurant" ∧ blank GET "place_id")
  ∧ ∃ e, get w GET = Raise e.
Proof.
  intros json w GET.
  assert (H1 : is_dict json = false) by reflexivity.
  assert (H2 : ∀ query latitude longitude,
             textsearch w query latitude longitude = Reply json)
    by reflexivity.
  assert (H3 : ∀ place_id, details w place_id = Reply json) by reflexivity.
  assert (H4 : ¬ (blank GET "restaurant" ∧ blank GET "place_id")).
  { intros [_ [H|H]]; vm_compute in H; discriminate H. }
  split; [exact H1|]. split; [exact H2|]. split; [exact H3|].
  split; [exact H4|].
  exact (non_object_reply_escapes w GET json H1 H2 H3 H4).
Defined.

(** ** The analysis of a restaurant *)

Lemma calculate_price_no_weather (base : float) (busy : Z) (p : float)
    (ps : list float) :
  calculate_price base (PDict ∅) busy (p :: ps) = Ok (py_min p ps).
Proof.
  unfold calculate_price.
  change (temp_f_of (PDict ∅))
    with (Ok (kelvin_to_fahrenheit (F64.decimal 29315 100))).
  change (weather_conditions_of (PDict ∅)) with (Ok (PStr "Clear")).
  rewrite !bind_Ok.
  change (F64.ltb (kelvin_to_fahrenheit (F64.decimal 29315 100)) (F64.of_Z 45))
    with false.
  reflexivity.
Qed.

(** X15. A failed nearby search is not reported: the page of the
    restaurant is built as usual, with no nearby restaurant and no menu
    item on it. *)
Theorem nearby_failure_is_silent (w : world) (place_id : string)
    (r : gmap string pyval) (latitude longitude : pyval) (message : string) :
  nearbysearch w latitude longitude = Failure message →
  analysis w place_id (PDict r) latitude longitude =
    (restaurant_details ← restaurant_details_display w (PDict r);
     weather ← weather_display (get_current_weather w latitude longitude);
     Ok (PDict {[ "restaurant_details" := restaurant_details;
                  "nearby_restaurants" := PList [];
                  "weather_data" := weather;
                  "busy_level" := PInt 75;
                  "menu_items" := PList [] ]})).
Proof.
  intros H. unfold analysis, search_nearby_restaurants. rewrite H.
  assert (Hmenu : ∀ weather_data busy,
             menu_of (PDict r)
               (failed "error_message"
                  "Failed to search nearby restaurants: " message)
               weather_data busy = Ok []).
  { intros weather_data busy. unfold menu_of. simpl.
    by destruct (truthy _). }
  rewrite Hmenu. reflexivity.
Qed.

Lemma nearby_failure_is_silent_witness :
  let w := {| textsearch := λ _ _ _, Failure "offline";
              details := λ _, Failure "offline";
              nearbysearch := λ _ _, Failure "timed out";
              openweather := λ _ _, Reply (PDict ∅);
              google_maps_api_key := None;
              str_capacity := 2 ^ 30 |} in
  let r : gmap string pyval := {[ "photos" := PList [PStr "photo"] ]} in
  nearbysearch w (PInt 40) (PInt (-73)) = Failure "timed out"
  ∧ analysis w "ChIJ" (PDict r) (PInt 40) (PInt (-73)) =
      (restaurant_details ← restaurant_details_display w (PDict r);
       weather ← weather_display (get_current_weather w (PInt 40) (PInt (-73)));
       Ok (PDict {[ "restaurant_details" := restaurant_details;
                    "nearby_restaurants" := PList [];
                    "weather_data" := weather;
                    "busy_level" := PInt 75;
                    "menu_items" := PList [] ]})).
Proof.
  intros w r.
  assert (H : nearbysearch w (PInt 40) (PInt (-73)) = Failure "timed out")
    by reflexivity.
  split; [exact H|].
  exact (nearby_failure_is_silent w "ChIJ" r (PInt 40) (PInt (-73))
           "timed out" H).
Defined.

(** X16. A failed weather request is not reported either: the page shows
    68 degrees, 'Unknown' and 'Weather data not available', and every item
    with competitor prices is priced at the lowest of them, at any busy
    level. *)
Theorem weather_failure_defaults (w : world) (latitude longitude : pyval)
    (message : string) :
  openweather w latitude longitude = Failure message →
  weather_display (get_current_weather w latitude longitude) =
    Ok (PDict {[ "temperature_f" := PFloat (F64.of_Z 68);
                 "condition" := PStr "Unknown";
                 "description" := PStr "Weather data not available" ]})
  ∧ ∀ item results busy menu_items p ps,
      competitor_loop (item_price item) (take 5 results) [] = Ok (p :: ps) →
      price_item item results (get_current_weather w latitude longitude)
        busy menu_items
      = append_quote item (py_min p ps) menu_items.
Proof.
  intros H. unfold get_current_weather. rewrite H. split.
  - unfold weather_display, failed. simpl.
    change (kelvin_to_fahrenheit (F64.decimal 29315 100)) with (F64.of_Z 68).
    reflexivity.
  - intros item results busy menu_items p ps Hloop.
    assert (Hmain : dict_get
                      (failed "error" "Failed to get weather data: " message)
                      "main" (PDict ∅) = Ok (PDict ∅)) by reflexivity.
    unfold price_item.
    by rewrite Hloop, bind_Ok, Hmain, bind_Ok, calculate_price_no_weather.
Qed.

Lemma weather_failure_defaults_witness :
  let w := {| textsearch := λ _ _ _, Failure "offline";
              details := λ _, Failure "offline";
              nearbysearch := λ _ _, Failure "offline";
              openweather := λ _ _, Failure "timed out";
              google_maps_api_key := None;
              str_capacity := 2 ^ 30 |} in
  openweather w (PInt 40) (PInt (-73)) = Failure "timed out"
  ∧ weather_display (get_current_weather w (PInt 40) (PInt (-73))) =
      Ok (PDict {[ "temperature_f" := PFloat (F64.of_Z 68);
                   "condition" := PStr "Unknown";
                   "description" := PStr "Weather data not available" ]})
  ∧ ∀ item results busy menu_items p ps,
      competitor_loop (item_price item) (take 5 results) [] = Ok (p :: ps) →
      price_item item results (get_current_weather w (PInt 40) (PInt (-73)))
        busy menu_items
      = append_quote item (py_min p ps) menu_items.
Proof.
  intros w.
  assert (H : openweather w (PInt 40) (PInt (-73)) = Failure "timed out")
    by reflexivity.
  split; [exact H|].
  exact (weather_failure_defaults w (PInt 40) (PInt (-73)) "timed out" H).
Defined.

Lemma analysis_inv (w : world) (place_id : string)
    (result_ latitude longitude context : pyval) :
  analysis w place_id result_ latitude longitude = Ok context →
  ∃ menu_items restaurant_details restaurants nearby weather,
    menu_of result_ (search_nearby_restaurants w latitude longitude)
      (get_current_weather w latitude longitude)
      (get_place_busy_times place_id) = Ok menu_items
    ∧ restaurant_details_display w result_ = Ok restaurant_details
    ∧ (dict_get (search_nearby_restaurants w latitude longitude) "results"
         (PList []) ≫= slice5_items) = Ok restaurants
    ∧ nearby_entries w restaurants = Ok nearby
    ∧ weather_display (get_current_weather w latitude longitude) = Ok weather
    ∧ context =
        PDict {[ "restaurant_details" := restaurant_details;
                 "nearby_restaurants" := PList nearby;
                 "weather_data" := weather;
                 "busy_level" := PInt (get_place_busy_times place_id);
                 "menu_items" := PList (quote_dict <$> menu_items) ]}.
Proof.
  unfold analysis. intros H.
  apply bind_Ok_inv in H as (menu_items & Hmenu & H).
  apply bind_Ok_inv in H as (restaurant_details & Hdetails & H).
  apply bind_Ok_inv in H as (results & Hresults & H).
  apply bind_Ok_inv in H as (restaurants & Hrestaurants & H).
  apply bind_Ok_inv in H as (nearby & Hnearby & H).
  apply bind_Ok_inv in H as (weather & Hweather & H).
  injection H as <-.
  exists menu_items, restaurant_details, restaurants, nearby, weather.
  repeat split; try done. by rewrite Hresults.
Qed.

(** X17. A restaurant without photos gets no menu: when its ['photos'] are
    missing or empty, the page that is rendered has no menu item, whatever
    the nearby restaurants and the weather. *)
Theorem no_photos_no_menu (w : world) (place_id : string)
    (r : gmap string pyval) (latitude longitude context : pyval) :
  truthy (default (PList []) (r !! "photos")) = false →
  analysis w place_id (PDict r) latitude longitude = Ok context →
  py_getitem context "menu_items" = Ok (PList []).
Proof.
  intros Hp H.
  apply analysis_inv in H
    as (menu_items & rd & rs & nearby & weather & Hmenu & _ & _ & _ & _ & ->).
  unfold menu_of in Hmenu. simpl in Hmenu. rewrite Hp in Hmenu.
  by injection Hmenu as <-.
Qed.

Lemma no_photos_no_menu_witness :
  let w := {| textsearch := λ _ _ _, Failure "offline";
              details := λ _, Failure "offline";
              nearbysearch := λ _ _,
                Reply (PDict {[ "results" :=
                                  PList [PDict {[ "price_level" := PInt 2 ]}] ]});
              openweather := λ _ _, Reply (PDict ∅);
              google_maps_api_key := None;
              str_capacity := 2 ^ 30 |} in
  let r : gmap string pyval := {[ "name" := PStr "Village" ]} in
  let context :=
    PDict {[ "restaurant_details" :=
               PDict {[ "name" := PStr "Village";
                        "address" := PStr "Address not available";
                        "rating" := PStr "N/A";
                        "total_ratings" := PInt 0;
                        "price_level" := PStr "N/A";
                        "photos" := PList [] ]};
             "nearby_restaurants" :=
               PList [PDict {[ "name" := PStr "Unknown";
                               "rating" := PStr "N/A";
                               "total_ratings" := PInt 0;
                               "price_level" :=
                                 PStr (String.append rupee rupee);
                               "distance" := PStr "N/A" ]}];
             "weather_data" :=
               PDict {[ "temperature_f" := PFloat (F64.of_Z 68);
                        "condition" := PStr "Unknown";
                        "description" := PStr "Weather data not available" ]};
             "busy_level" := PInt 75;
             "menu_items" := PList [] ]} in
  truthy (default (PList []) (r !! "photos")) = false
  ∧ analysis w "ChIJ" (PDict r) (PInt 40) (PInt (-73)) = Ok context
  ∧ py_getitem context "menu_items" = Ok (PList []).
Proof.
  intros w r context.
  assert (H1 : truthy (default (PList []) (r !! "photos")) = false)
    by reflexivity.
  assert (H2 : analysis w "ChIJ" (PDict r) (PInt 40) (PInt (-73)) = Ok context)
    by (vm_compute; reflexivity).
  split; [exact H1|]. split; [exact H2|].
  exact (no_photos_no_menu w "ChIJ" r (PInt 40) (PInt (-73)) context H1 H2).
Defined.

Lemma weather_display_empty_list (d : gmap string pyval) (context : pyval) :
  d !! "weather" = Some (PList []) →
  weather_display (PDict d) ≠ Ok context.
Proof.
  intros Hw H. unfold weather_display in H.
  apply bind_Ok_inv in H as (main & _ & H).
  apply bind_Ok_inv in H as (temp & _ & H).
  apply bind_Ok_inv in H as (kelvin & _ & H).
  unfold dict_get in H. rewrite Hw in H. discriminate H.
Qed.

(** X18. An empty ['weather'] list in the weather reply costs the whole
    page: the analysis raises, and the view shows its error page, although
    the prices do not depend on that list. *)
Theorem empty_weather_list_breaks_page (w : world) (place_id : string)
    (result_ latitude longitude : pyval) (d : gmap string pyval) :
  openweather w latitude longitude = Reply (PDict d) →
  d !! "weather" = Some (PList []) →
  ∃ e, analysis w place_id result_ latitude longitude = Raise e.
Proof.
  intros Hreply Hw.
  destruct (analysis w place_id result_ latitude longitude) as [context|e]
    eqn:H; [|by eexists].
  apply analysis_inv in H
    as (menu_items & rd & rs & nearby & weather & _ & _ & _ & _ & Hd & _).
  unfold get_current_weather in Hd. rewrite Hreply in Hd.
  by apply weather_display_empty_list in Hd.
Qed.

Lemma empty_weather_list_breaks_page_witness :
  let d : gmap string pyval :=
    {[ "main" := PDict {[ "temp" := PFloat (F64.of_Z 280) ]};
       "weather" := PList [] ]} in
  let w := {| textsearch := λ _ _ _, Failure "offline";
              details := λ _, Failure "offline";
              nearbysearch := λ _ _, Reply (PDict ∅);
              openweather := λ _ _, Reply (PDict d);
              google_maps_api_key := None;
              str_capacity := 2 ^ 30 |} in
  openweather w (PInt 40) (PInt (-73)) = Reply (PDict d)
  ∧ (d !! "weather" = Some (PList []))
  ∧ ∃ e, analysis w "ChIJ" (PDict ∅) (PInt 40) (PInt (-73)) = Raise e.
Proof.
  intros d w.
  assert (H1 : openweather w (PInt 40) (PInt (-73)) = Reply (PDict d))
    by reflexivity.
  assert (H2 : d !! "weather" = Some (PList [])) by reflexivity.
  split; [exact H1|]. split; [exact H2|].
  exact (empty_weather_list_breaks_page w "ChIJ" (PDict ∅) (PInt 40)
           (PInt (-73)) d H1 H2).
Defined.

(** X19. A place whose details carry no ['geometry'] is analysed at the
    coordinates 40.7631, -73.5267: the nearby search and the weather are
    asked for that point. *)
Theorem default_coordinates (w : world) (place_id : string)
    (d r : gmap string pyval) :
  details w (PStr place_id) = Reply (PDict d) →
  d !! "error_message" = None →
  d !! "result" = Some (PDict r) →
  truthy (PDict r) = true →
  r !! "geometry" = None →
  details_view w place_id =
    Ok match analysis w place_id (PDict r)
               (PFloat (F64.decimal 407631 10000))
               (PFloat (SFopp (F64.decimal 735267 10000))) with
       | Ok context => Render "pricing/pricing.html" context
       | Raise e => RenderAnalysisError e
       end.
Proof.
  intros Hreply He Hr Ht Hg.
  assert (Hc : py_contains "error_message" (PDict d) = Ok false).
  { unfold py_contains. by rewrite He. }
  assert (Hres : dict_get (PDict d) "result" (PDict ∅) = Ok (PDict r)).
  { unfold dict_get. by rewrite Hr. }
  assert (Hgeo : dict_get (PDict r) "geometry" (PDict ∅) = Ok (PDict ∅)).
  { unfold dict_get. by rewrite Hg. }
  unfold details_view, get_restaurant_details.
  rewrite Hreply, Hc, bind_Ok, Hres, bind_Ok, Ht, Hgeo. reflexivity.
Qed.

Lemma default_coordinates_witness :
  let r : gmap string pyval := {[ "name" := PStr "Village" ]} in
  let d : gmap string pyval := {[ "result" := PDict r ]} in
  let w := {| textsearch := λ _ _ _, Failure "offline";
              details := λ _, Reply (PDict d);
              nearbysearch := λ _ _, Reply (PDict ∅);
              openweather := λ _ _, Reply (PDict ∅);
              google_maps_api_key := None;
              str_capacity := 2 ^ 30 |} in
  details w (PStr "ChIJ") = Reply (PDict d)
  ∧ (d !! "error_message" = None)
  ∧ (d !! "result" = Some (PDict r))
  ∧ truthy (PDict r) = true
  ∧ (r !! "geometry" = None)
  ∧ details_view w "ChIJ" =
      Ok match analysis w "ChIJ" (PDict r)
                 (PFloat (F64.decimal 407631 10000))
                 (PFloat (SFopp (F64.decimal 735267 10000))) with
         | Ok context => Render "pricing/pricing.html" context
         | Raise e => RenderAnalysisError e
         end.
Proof.
  intros r d w.
  assert (H1 : details w (PStr "ChIJ") = Reply (PDict d)) by reflexivity.
  assert (H2 : d !! "error_message" = None) by reflexivity.
  assert (H3 : d !! "result" = Some (PDict r)) by reflexivity.
  assert (H4 : truthy (PDict r) = true) by reflexivity.
  assert (H5 : r !! "geometry" = None) by reflexivity.
  split; [exact H1|]. split; [exact H2|]. split; [exact H3|].
  split; [exact H4|]. split; [exact H5|].
  exact (default_coordinates w "ChIJ" d r H1 H2 H3 H4 H5).
Defined.

Lemma nearby_entries_length (w : world) (rs nearby : list pyval) :
  nearby_entries w rs = Ok nearby → length nearby = length rs.
Proof.
  revert nearby. induction rs as [|r rs IH]; intros nearby H; simpl in H.
  - by injection H as <-.
  - apply bind_Ok_inv in H as (entry & _ & H).
    apply bind_Ok_inv in H as (entries & Hentries & H).
    injection H as <-. simpl. f_equal. by apply IH.
Qed.

Lemma slice5_items_length (v : pyval) (items : list pyval) :
  slice5_items v = Ok items → (length items ≤ 5)%nat.
Proof.
  destruct v; try discriminate; intros H; injection H as <-;
    rewrite ?length_fmap, length_take; lia.
Qed.

(** X20. The page of a restaurant lists at most five nearby restaurants,
    has an entry for each of the four sample items or for none, and shows
    the busy level 75. *)
Theorem page_sizes (w : world) (place_id : string)
    (result_ latitude longitude context : pyval) :
  analysis w place_id result_ latitude longitude = Ok context →
  ∃ nearby menu,
    py_getitem context "nearby_restaurants" = Ok (PList nearby)
    ∧ (length nearby ≤ 5)%nat
    ∧ py_getitem context "menu_items" = Ok (PList menu)
    ∧ (menu = [] ∨ length menu = 4%nat)
    ∧ py_getitem context "busy_level" = Ok (PInt 75).
Proof.
  intros H.
  apply analysis_inv in H
    as (menu_items & rd & rs & nearby & weather
        & Hmenu & _ & Hrs & Hnearby & _ & ->).
  exists nearby, (quote_dict <$> menu_items).
  split; [reflexivity|]. split.
  - rewrite (nearby_entries_length _ _ _ Hnearby).
    apply bind_Ok_inv in Hrs as (results & _ & Hrs).
    by apply slice5_items_length in Hrs.
  - split; [reflexivity|]. split; [|reflexivity].
    unfold menu_of in Hmenu.
    apply bind_Ok_inv in Hmenu as (photos & _ & Hmenu).
    destruct (truthy photos); [|injection Hmenu as <-; by left].
    apply bind_Ok_inv in Hmenu as (results & _ & Hmenu).
    apply bind_Ok_inv in Hmenu as (restaurants & _ & Hmenu).
    apply price_menu_shape in Hmenu as [->|Hnames]; [by left|right].
    rewrite length_fmap.
    apply (f_equal length) in Hnames. by rewrite !length_fmap in Hnames.
Qed.

Lemma page_sizes_witness :
  let priced_at (n : Z) : pyval := PDict {[ "price_level" := PInt n ]} in
  let w := {| textsearch := λ _ _ _, Failure "offline";
              details := λ _, Failure "offline";
              nearbysearch := λ _ _,
                Reply (PDict {[ "results" :=
                  PList [ priced_at 2; priced_at 3; priced_at 2; priced_at 4;
                          priced_at 3; priced_at 1; priced_at 1 ] ]});
              openweather := λ _ _, Failure "offline";
              google_maps_api_key := None;
              str_capacity := 2 ^ 30 |} in
  let result_ :=
    PDict {[ "name" := PStr "Village"; "photos" := PList [PStr "photo"] ]} in
  let shown (n : nat) : pyval :=
    PDict {[ "name" := PStr "Unknown";
             "rating" := PStr "N/A";
             "total_ratings" := PInt 0;
             "price_level" := PStr (str_repeat rupee n);
             "distance" := PStr "N/A" ]} in
  let unchanged (item : menu_item) : pyval :=
    quote_dict {| name := item_name item;
                  original_price := item_price item;
                  new_price := item_price item;
                  price_change := S754_zero false |} in
  let context :=
    PDict {[ "restaurant_details" :=
               PDict {[ "name" := PStr "Village";
                        "address" := PStr "Address not available";
                        "rating" := PStr "N/A";
                        "total_ratings" := PInt 0;
                        "price_level" := PStr "N/A";
                        "photos" := PList [PStr "photo"] ]};
             "nearby_restaurants" :=
               PList [shown 2%nat; shown 3%nat; shown 2%nat; shown 4%nat;
                      shown 3%nat];
             "weather_data" :=
               PDict {[ "temperature_f" := PFloat (F64.of_Z 68);
                        "condition" := PStr "Unknown";
                        "description" := PStr "Weather data not available" ]};
             "busy_level" := PInt 75;
             "menu_items" := PList (unchanged <$> sample_menu_items) ]} in
  analysis w "ChIJ" result_ (PInt 40) (PInt (-73)) = Ok context
  ∧ (∃ nearby menu,
        py_getitem context "nearby_restaurants" = Ok (PList nearby)
        ∧ (length nearby ≤ 5)%nat
        ∧ py_getitem context "menu_items" = Ok (PList menu)
        ∧ (menu = [] ∨ length menu = 4%nat)
        ∧ py_getitem context "busy_level" = Ok (PInt 75))
  ∧ py_getitem context "nearby_restaurants" =
      Ok (PList [shown 2%nat; shown 3%nat; shown 2%nat; shown 4%nat;
                 shown 3%nat])
  ∧ py_getitem context "menu_items" =
      Ok (PList (unchanged <$> sample_menu_items)).
Proof.
  intros priced_at w result_ shown unchanged context.
  assert (H : analysis w "ChIJ" result_ (PInt 40) (PInt (-73)) = Ok context)
    by (vm_compute; reflexivity).
  split; [exact H|].
  split; [exact (page_sizes w "ChIJ" result_ (PInt 40) (PInt (-73)) context
                   H)|].
  split; reflexivity.
Defined.




(** X22. A price level that is a [float], such as [2.0], is priced but not
    displayed: the pricing loop divides it by two, while the display of the
    price level raises [TypeError]. *)
Theorem float_price_level (w : world) (d : gmap string pyval)
    (f price : float) :
  d !! "price_level" = Some (PFloat f) →
  F64.is_zero f = false →
  competitor_loop price [PDict d] [] =
    Ok [F64.mul price (F64.div f (F64.of_Z 2))]
  ∧ price_level_display w (PDict d) = Raise TypeError
  ∧ nearby_entry w (PDict d) = Raise TypeError.
Proof.
  intros Hd Hf.
  assert (Hdisplay : price_level_display w (PDict d) = Raise TypeError).
  { unfold price_level_display, dict_get. rewrite Hd. simpl. by rewrite Hf. }
  split; [|split; [exact Hdisplay|]].
  - simpl. unfold dict_get. rewrite Hd. simpl. by rewrite Hf.
  - unfold nearby_entry. by rewrite Hdisplay.
Qed.

Lemma float_price_level_witness :
  let w := {| textsearch := λ _ _ _, Failure "offline";
              details := λ _, Failure "offline";
              nearbysearch := λ _ _, Failure "offline";
              openweather := λ _ _, Failure "offline";
              google_maps_api_key := None;
              str_capacity := 2 ^ 30 |} in
  let d : gmap string pyval := {[ "price_level" := PFloat (F64.of_Z 2) ]} in
  let price := F64.decimal 1599 100 in
  (d !! "price_level" = Some (PFloat (F64.of_Z 2)))
  ∧ F64.is_zero (F64.of_Z 2) = false
  ∧ competitor_loop price [PDict d] [] =
      Ok [F64.mul price (F64.div (F64.of_Z 2) (F64.of_Z 2))]
  ∧ price_level_display w (PDict d) = Raise TypeError
  ∧ nearby_entry w (PDict d) = Raise TypeError.
Proof.
  intros w d price.
  assert (H1 : d !! "price_level" = Some (PFloat (F64.of_Z 2))) by reflexivity.
  assert (H2 : F64.is_zero (F64.of_Z 2) = false) by reflexivity.
  split; [exact H1|]. split; [exact H2|].
  exact (float_price_level w d (F64.of_Z 2) price H1 H2).
Defined.

(** ** The command [find_place_id] *)

Lemma write_place_dict (place : gmap string pyval) (out : list line) :
  write_place (PDict place) out = (out ++ place_lines place, Ok tt).
Proof.
  unfold write_place, place_lines, mbind, io_bind, write, lift. simpl.
  by rewrite <- !app_assoc.
Qed.

Lemma write_place_not_dict (place : pyval) (out : list line) :
  is_dict place = false →
  write_place place out = (out, Raise AttributeError).
Proof. by destruct place. Qed.

Lemma write_places_dicts (places : list (gmap string pyval)) (rest : list pyval)
    (out : list line) :
  write_places ((PDict <$> places) ++ rest) out =
  write_places rest (out ++ concat (place_lines <$> places)).
Proof.
  revert out. induction places as [|place places IH]; intros out.
  - simpl. by rewrite app_nil_r.
  - rewrite fmap_cons. simpl. unfold mbind, io_bind at 1.
    rewrite write_place_dict, IH. by rewrite <- app_assoc.
Qed.

(** X23. On a reply with a list of results the command writes the header
    and then, place by place in the order of the list, the name, the
    address, the place id and a rule of fifty dashes, [None] standing for a
    missing field; an empty list leaves the header alone.  A place that is
    no dictionary ends the command with [AttributeError] after the lines of
    the places before it. *)
Theorem handle_lists_places (w : world) (restaurant_name : string)
    (d : gmap string pyval) (places : list (gmap string pyval))
    (rest : list pyval) :
  textsearch w (PStr restaurant_name) (PFloat (F64.decimal 407631 10000))
    (PFloat (SFopp (F64.decimal 735267 10000))) = Reply (PDict d) →
  d !! "results" = Some (PList ((PDict <$> places) ++ rest)) →
  match rest with
  | [] => True
  | place :: _ => is_dict place = false
  end →
  handle w restaurant_name [] =
    (Success "Search Results:" :: concat (place_lines <$> places),
     match rest with
     | [] => Ok tt
     | _ :: _ => Raise AttributeError
     end).
Proof.
  intros Hreply Hd Hrest. unfold handle, search_place. rewrite Hreply.
  unfold mbind at 1, io_bind at 1, lift at 1, py_contains.
  rewrite Hd. simpl bool_decide. cbv iota.
  unfold mbind at 1, io_bind at 1, write at 1.
  unfold mbind at 1, io_bind at 1, lift at 1, py_getitem. rewrite Hd.
  rewrite bind_Ok.
  change (bool_decide (is_Some (Some (PList ((PDict <$> places) ++ rest)))))
    with true.
  change (py_iter (PList ((PDict <$> places) ++ rest)))
    with (Ok ((PDict <$> places) ++ rest)).
  cbv beta iota. rewrite write_places_dicts. simpl app.
  destruct rest as [|place rest]; [reflexivity|].
  simpl. unfold mbind, io_bind. by rewrite write_place_not_dict.
Qed.

Lemma handle_lists_places_witness :
  let place : gmap string pyval :=
    {[ "name" := PStr "Village"; "place_id" := PStr "ChIJ" ]} in
  let d : gmap string pyval :=
    {[ "results" := PList [PDict place; PStr "more"; PDict place] ]} in
  let w := {| textsearch := λ _ _ _, Reply (PDict d);
              details := λ _, Failure "offline";
              nearbysearch := λ _ _, Failure "offline";
              openweather := λ _ _, Failure "offline";
              google_maps_api_key := None;
              str_capacity := 2 ^ 30 |} in
  textsearch w (PStr "village") (PFloat (F64.decimal 407631 10000))
    (PFloat (SFopp (F64.decimal 735267 10000))) = Reply (PDict d)
  ∧ (d !! "results" =
       Some (PList ((PDict <$> [place]) ++ [PStr "more"; PDict place])))
  ∧ is_dict (PStr "more") = false
  ∧ handle w "village" [] =
      (Success "Search Results:" :: concat (place_lines <$> [place]),
       Raise AttributeError).
Proof.
  intros place d w.
  assert (H1 : textsearch w (PStr "village")
                 (PFloat (F64.decimal 407631 10000))
                 (PFloat (SFopp (F64.decimal 735267 10000)))
               = Reply (PDict d)) by reflexivity.
  assert (H2 : d !! "results" =
               Some (PList ((PDict <$> [place]) ++ [PStr "more"; PDict place])))
    by reflexivity.
  assert (H3 : is_dict (PStr "more") = false) by reflexivity.
  split; [exact H1|]. split; [exact H2|]. split; [exact H3|].
  exact (handle_lists_places w "village" d [place]
           [PStr "more"; PDict place] H1 H2 H3).
Defined.

(** X24. Without a ['results'] key the command writes one line: the
    reply's ['error_message'], the one [search_place] makes of a failed
    request, or 'No results found' when the reply has none. *)
Theorem handle_reports_error (w : world) (restaurant_name : string)
    (d : gmap string pyval) (message : pyval) (failure : string) :
  (textsearch w (PStr restaurant_name) (PFloat (F64.decimal 407631 10000))
     (PFloat (SFopp (F64.decimal 735267 10000))) = Reply (PDict d)
   ∧ d !! "results" = None
   ∧ message = default (PStr "No results found") (d !! "error_message"))
  ∨ (textsearch w (PStr restaurant_name) (PFloat (F64.decimal 407631 10000))
       (PFloat (SFopp (F64.decimal 735267 10000))) = Failure failure
     ∧ message = PStr (String.append "Failed to search place: " failure)) →
  handle w restaurant_name [] = ([Error "Error: " message], Ok tt).
Proof.
  unfold handle, search_place. intros [(-> & Hd & ->)|[-> ->]].
  - unfold mbind at 1, io_bind at 1, lift at 1, py_contains.
    rewrite Hd. reflexivity.
  - reflexivity.
Qed.

Lemma handle_reports_error_witness :
  let d : gmap string pyval := {[ "status" := PStr "ZERO_RESULTS" ]} in
  let w := {| textsearch := λ _ _ _, Reply (PDict d);
              details := λ _, Failure "offline";
              nearbysearch := λ _ _, Failure "offline";
              openweather := λ _ _, Failure "offline";
              google_maps_api_key := None;
              str_capacity := 2 ^ 30 |} in
  let message := PStr "No results found" in
  ((textsearch w (PStr "village") (PFloat (F64.decimal 407631 10000))
      (PFloat (SFopp (F64.decimal 735267 10000))) = Reply (PDict d)
    ∧ d !! "results" = None
    ∧ message = default (PStr "No results found") (d !! "error_message"))
   ∨ (textsearch w (PStr "village") (PFloat (F64.decimal 407631 10000))
        (PFloat (SFopp (F64.decimal 735267 10000))) = Failure "offline"
      ∧ message = PStr (String.append "Failed to search place: " "offline")))
  ∧ handle w "village" [] = ([Error "Error: " message], Ok tt).
Proof.
  intros d w message.
  assert (H : (textsearch w (PStr "village")
                 (PFloat (F64.decimal 407631 10000))
                 (PFloat (SFopp (F64.decimal 735267 10000)))
               = Reply (PDict d)
               ∧ d !! "results" = None
               ∧ message =
                   default (PStr "No results found") (d !! "error_message"))
              ∨ (textsearch w (PStr "village")
                   (PFloat (F64.decimal 407631 10000))
                   (PFloat (SFopp (F64.decimal 735267 10000)))
                 = Failure "offline"
                 ∧ message =
                     PStr (String.append "Failed to search place: "
                             "offline")))
    by (left; repeat split; reflexivity).
  split; [exact H|].
  exact (handle_reports_error w "village" d message "offline" H).
Defined.
